(** * Retail backend: cart, order placement and the superuser check

    A shallow embedding of the Express handlers of the cart router
    ([POST /api/cart/add], [POST /api/cart/place-order]), of the order
    router [auth/order.js] ([POST /api/orders], [isSuperUser]) and of the
    [isSuperUser] helper as the size and category routers write it.

    The relational store is reached through the Supabase client, which is
    not part of the repository.  It is modelled as a record of tables (lists
    of rows, in insertion order) together with a schedule of faults: every
    awaited store call consumes one entry of the schedule and either
    succeeds, resolves to [{ data: null, error }], or rejects (throws).  A
    call that meets a fault leaves the tables as they are.  Every call is
    also appended to a trace, so that "no store access" and "no store write"
    can be stated.  Calls to [console] are left out.

    A filter [.eq(column, value)] reaches the store as the text
    [column=eq.<value>]: the client prints the value into the query, which
    is a TypeError for a value that cannot be printed, raised while the
    query is built and so before any call is sent.  Which rows pass the
    filter is the store's decision and depends on the type of the column;
    the store's comparison of a column value with the text, [eq_text], is a
    component of the store that is left open, so that what is proved holds
    for every store.  The stores of the examples compare the printed column
    with the text.  The cart read and the cart clear of a user
    ([cart_select_by_user], [cart_delete_by_user], [cart_select_joined]) are
    written with [user_is], the lines whose [user_id] is the given value. *)

From Stdlib Require Import List ZArith String Bool Lia Permutation.
From Stdlib Require Import Sorted DecimalString.
Import ListNotations.
Local Open Scope string_scope.
Local Open Scope Z_scope.
Local Open Scope list_scope.

(** ** JavaScript values *)

(** Values of a parsed JSON body and of store columns.  Numbers are the
    integers (identifiers and quantities are integer columns); an absent
    object key reads as [JUndefined]. *)
#[warnings="-register-all"]
Inductive jsval : Type :=
| JUndefined
| JNull
| JBool (b : bool)
| JNum (n : Z)
| JStr (s : string)
| JArr (elems : list jsval)
| JObj (fields : list (string * jsval)).

(** ToBoolean: [undefined], [null], [false], [0] and the empty string are falsy. *)
Definition truthy (v : jsval) : bool :=
  match v with
  | JUndefined | JNull => false
  | JBool b => b
  | JNum n => negb (n =? 0)
  | JStr s => negb (String.eqb s EmptyString)
  | JArr _ | JObj _ => true
  end.

(** [a || b] *)
Definition js_or (a b : jsval) : jsval := if truthy a then a else b.

(** Structural equality of values. *)
Fixpoint jsval_eqb (a b : jsval) {struct a} : bool :=
  match a, b with
  | JUndefined, JUndefined => true
  | JNull, JNull => true
  | JBool x, JBool y => Bool.eqb x y
  | JNum x, JNum y => x =? y
  | JStr x, JStr y => String.eqb x y
  | JArr xs, JArr ys =>
      (fix go (xs ys : list jsval) {struct xs} : bool :=
         match xs, ys with
         | [], [] => true
         | x :: xs', y :: ys' => jsval_eqb x y && go xs' ys'
         | _, _ => false
         end) xs ys
  | JObj fs, JObj gs =>
      (fix go (fs gs : list (string * jsval)) {struct fs} : bool :=
         match fs, gs with
         | [], [] => true
         | (k, x) :: fs', (l, y) :: gs' =>
             String.eqb k l && jsval_eqb x y && go fs' gs'
         | _, _ => false
         end) fs gs
  | _, _ => false
  end.

(** Result of evaluating an expression that may throw. *)
Inductive completion (A : Type) : Type :=
| Normal (a : A)
| Abrupt.
Arguments Normal {A} a.
Arguments Abrupt {A}.

Fixpoint lookup_field (k : string) (fs : list (string * jsval)) : jsval :=
  match fs with
  | [] => JUndefined
  | (l, v) :: fs' => if String.eqb k l then v else lookup_field k fs'
  end.

(** Property read [v.k] for the keys the handlers read ([length] and plain
    data keys): a TypeError on [undefined] and [null], the length of a
    string or array, the field of an object, [undefined] otherwise. *)
Definition get_prop (v : jsval) (k : string) : completion jsval :=
  match v with
  | JUndefined | JNull => Abrupt
  | JBool _ | JNum _ => Normal JUndefined
  | JStr s => Normal (if String.eqb k "length" then JNum (Z.of_nat (String.length s)) else JUndefined)
  | JArr l => Normal (if String.eqb k "length" then JNum (Z.of_nat (List.length l)) else JUndefined)
  | JObj fs => Normal (lookup_field k fs)
  end.

(** The values a [for (const item of v)] loop visits: the elements of an
    array, the characters of a string; anything else is not iterable. *)
Fixpoint chars (s : string) : list jsval :=
  match s with
  | EmptyString => []
  | String c s' => JStr (String c EmptyString) :: chars s'
  end.

Definition iterate (v : jsval) : completion (list jsval) :=
  match v with
  | JArr l => Normal l
  | JStr s => Normal (chars s)
  | _ => Abrupt
  end.

(** ** What the client sends for a filter argument *)

(** The object has a key [k] of its own. *)
Definition has_field (k : string) (fs : list (string * jsval)) : bool :=
  existsb (fun kv => String.eqb k (fst kv)) fs.

(** The text of a number: an integer prints in decimal (at the magnitudes,
    below 10^21, at which a request body carries integers), with a leading
    minus sign below 0. *)
Definition decimal (n : Z) : string := NilZero.string_of_int (Z.to_int n).

(** ToString, as a template literal applies it and as the client applies it
    to the argument of [.eq(column, value)] when it writes [eq.${value}]
    into the query: an array prints its elements joined by commas, [null]
    and [undefined] elements as nothing; an object prints as
    [[object Object]], unless it has a key [toString] of its own, which is
    not callable: then the conversion is a TypeError. *)
Fixpoint sent_text (v : jsval) : completion string :=
  match v with
  | JUndefined => Normal "undefined"
  | JNull => Normal "null"
  | JBool true => Normal "true"
  | JBool false => Normal "false"
  | JNum n => Normal (decimal n)
  | JStr s => Normal s
  | JArr l =>
      (fix join (l : list jsval) : completion string :=
         match l with
         | [] => Normal EmptyString
         | x :: rest =>
             let first :=
               match x with
               | JUndefined | JNull => Normal EmptyString
               | _ => sent_text x
               end in
             match rest with
             | [] => first
             | _ :: _ =>
                 match first, join rest with
                 | Normal a, Normal b => Normal (String.append a (String.append "," b))
                 | _, _ => Abrupt
                 end
             end
         end) l
  | JObj fs => if has_field "toString" fs then Abrupt else Normal "[object Object]"
  end.

(** The text that a store which compares texts takes for a column value;
    a null column has none. *)
Definition key_text (column : jsval) : option string :=
  match column with
  | JUndefined | JNull => None
  | _ => match sent_text column with Normal t => Some t | Abrupt => None end
  end.

(** The comparison of such a store for the filter [eq.text]: the column
    prints as that text.  It is the comparison of the stores of the
    examples. *)
Definition matches_text (column : jsval) (text : string) : bool :=
  match key_text column with
  | Some t => String.eqb t text
  | None => false
  end.

(** ** Induction over nested values *)

Section JsvalInd.
Variable P : jsval -> Prop.
Hypothesis Hundef : P JUndefined.
Hypothesis Hnull : P JNull.
Hypothesis Hbool : forall b, P (JBool b).
Hypothesis Hnum : forall n, P (JNum n).
Hypothesis Hstr : forall s, P (JStr s).
Hypothesis Harr : forall l, Forall P l -> P (JArr l).
Hypothesis Hobj : forall fs, Forall (fun kv => P (snd kv)) fs -> P (JObj fs).

Fixpoint jsval_nested_ind (v : jsval) : P v :=
  match v with
  | JUndefined => Hundef
  | JNull => Hnull
  | JBool b => Hbool b
  | JNum n => Hnum n
  | JStr s => Hstr s
  | JArr l =>
      Harr l ((fix all (l : list jsval) : Forall P l :=
                 match l with
                 | [] => Forall_nil _
                 | x :: l' => Forall_cons x (jsval_nested_ind x) (all l')
                 end) l)
  | JObj fs =>
      Hobj fs ((fix all (fs : list (string * jsval))
                  : Forall (fun kv => P (snd kv)) fs :=
                  match fs with
                  | [] => Forall_nil _
                  | kv :: fs' =>
                      Forall_cons kv (jsval_nested_ind (snd kv)) (all fs')
                  end) fs)
  end.
End JsvalInd.

(** ** The store *)

Record CartRow := mkCart {
  c_id : jsval; c_user_id : jsval; c_product_id : jsval;
  c_size_id : jsval; c_quantity : jsval; c_added_at : jsval }.

Record OrderRow := mkOrder {
  o_id : jsval; o_user_id : jsval; o_order_status : jsval; o_created_at : jsval }.

Record OrderItemRow := mkItem {
  oi_id : jsval; oi_order_id : jsval; oi_product_id : jsval;
  oi_size_id : jsval; oi_quantity : jsval }.

Record ProductRow := mkProduct { p_id : jsval; p_title : jsval }.

Record ProductSizeRow := mkPS { ps_product_id : jsval; ps_size_id : jsval }.

Record SuperuserRow := mkSuper { s_id : jsval }.

(** The tables the handlers touch, the counters from which the store draws
    the primary key of an inserted row, the store's clock for the
    [added_at] default, and the store's comparison for the filter
    [column=eq.text] that [.eq(column, value)] sends: [eq_text v text] tells
    whether a column of value [v] passes it.  The comparison is the store's
    own (it depends on the type of the column) and is left open. *)
Record Db := mkDb {
  cart : list CartRow;
  orders : list OrderRow;
  orderitems : list OrderItemRow;
  products : list ProductRow;
  product_sizes : list ProductSizeRow;
  superusers : list SuperuserRow;
  next_cart_id : Z;
  next_order_id : Z;
  next_item_id : Z;
  db_now : jsval;
  eq_text : jsval -> string -> bool }.

(** The row's column is one that [.eq(column, argument)] selects: the
    argument can be written into the query and the store takes the column
    to pass the filter. *)
Definition same_key (d : Db) (column argument : jsval) : bool :=
  match sent_text argument with
  | Normal text => eq_text d column text
  | Abrupt => false
  end.

Inductive table := TCart | TOrders | TOrderItems | TProducts | TProductSizes | TSuperusers.
Inductive op_kind := OpSelect | OpInsert | OpDelete.

Definition is_write (a : table * op_kind) : bool :=
  match snd a with OpSelect => false | OpInsert | OpDelete => true end.

(** What the awaited call does: succeed, resolve to an error object, or
    reject. *)
Inductive fault := NoFault | ReturnsError | Rejects.

Record world := mkWorld {
  db : Db;
  faults : list fault;
  trace : list (table * op_kind) }.

(** The object a store call resolves to: [{ data, error }]. *)
Record sbres (A : Type) := mkRes { data : option A; error : bool }.
Arguments mkRes {A} data error.
Arguments data {A} s.
Arguments error {A} s.

Definition sb_ok {A} (a : A) : sbres A := mkRes (Some a) false.
Definition sb_err {A} : sbres A := mkRes None true.

(** [!x] for the [data] of a result: [null] is falsy, a row or an array of
    rows is truthy. *)
Definition is_null {A} (d : option A) : bool :=
  match d with None => true | Some _ => false end.

(** ** Responses and the handler monad *)

Inductive body :=
| BError (msg : string)
| BProductNotFound (product_id : jsval)
| BInvalidSize (size_id product_id : jsval)
| BCartItem (msg : string) (cart_item : option CartRow)
| BPlaced (msg : string) (order : option OrderRow) (order_items : option (list OrderItemRow))
| BCreated (msg : string) (order : option OrderRow) (items : option (list OrderItemRow)).

Record response := mkResp { status : Z; payload : body }.

(** A computation inside a handler: it yields a value, ends the handler
    with [return res.status(..).json(..)], or throws. *)
Inductive result (A : Type) : Type :=
| Val (a : A)
| Respond (r : response)
| Throw.
Arguments Val {A} a.
Arguments Respond {A} r.
Arguments Throw {A}.

Definition M (A : Type) : Type := world -> result A * world.

Definition ret {A} (a : A) : M A := fun w => (Val a, w).

Definition bind {A B} (m : M A) (k : A -> M B) : M B :=
  fun w =>
    match m w with
    | (Val a, w') => k a w'
    | (Respond r, w') => (Respond r, w')
    | (Throw, w') => (Throw, w')
    end.

Definition respond {A} (code : Z) (b : body) : M A :=
  fun w => (Respond (mkResp code b), w).

Definition throw {A} : M A := fun w => (Throw, w).

(** [try { body } catch (err) { handler }] *)
Definition try_catch {A} (m : M A) (h : M A) : M A :=
  fun w =>
    match m w with
    | (Throw, w') => h w'
    | other => other
    end.

(** [if (c) { return ... }] *)
Definition when (c : bool) (m : M unit) : M unit := if c then m else ret tt.

Definition lift {A} (c : completion A) : M A :=
  match c with Normal a => ret a | Abrupt => throw end.

Notation "x <- m ;; k" := (bind m (fun x => k))
  (at level 61, m at next level, right associativity).
Notation "m ;;; k" := (bind m (fun _ => k))
  (at level 61, right associativity).

Definition status_of {A} (r : result A) : option Z :=
  match r with Respond r => Some (status r) | _ => None end.

(** The fault that meets the [n]-th store call from now on; a schedule that
    has run out holds no more faults. *)
Fixpoint nth_fault (n : nat) (fs : list fault) : fault :=
  match n with
  | O => hd NoFault fs
  | S n' => nth_fault n' (tl fs)
  end.

(** One awaited store call on table [t]: it is traced, takes the next fault
    of the schedule, and only a call without fault runs [op] on the
    tables. *)
Definition store_call {A} (t : table) (k : op_kind) (op : Db -> sbres A * Db) : M (sbres A) :=
  fun w =>
    let after d := mkWorld d (tl (faults w)) (trace w ++ [(t, k)]) in
    match hd NoFault (faults w) with
    | Rejects => (Throw, after (db w))
    | ReturnsError => (Val sb_err, after (db w))
    | NoFault => (Val (fst (op (db w))), after (snd (op (db w))))
    end.

(** [.single()]: exactly one row, otherwise an error and [data: null]. *)
Definition single {A} (rows : list A) : sbres A :=
  match rows with
  | [x] => sb_ok x
  | _ => sb_err
  end.

(** ** Relational comparison with zero *)

(** [v <= 0] converts [v] with ToNumber.  For [undefined] that is NaN, for
    [null] it is 0, for a boolean 0 or 1.  A string, and an array or object
    after ToPrimitive, goes through the engine's StringToNumber;
    [coerced_le_zero] stands for the outcome of the comparison on those
    values. *)
Definition js_le_zero (coerced_le_zero : jsval -> bool) (v : jsval) : bool :=
  match v with
  | JUndefined => false
  | JNull => true
  | JBool b => negb b
  | JNum n => n <=? 0
  | JStr _ | JArr _ | JObj _ => coerced_le_zero v
  end.

(** [v <= 0] with the TypeError of the conversion: an array or object is
    converted through its text, and the comparison throws where that
    conversion throws. *)
Definition le_zero (coerced_le_zero : jsval -> bool) (v : jsval) : completion bool :=
  match v with
  | JArr _ | JObj _ =>
      match sent_text v with
      | Normal _ => Normal (coerced_le_zero v)
      | Abrupt => Abrupt
      end
  | _ => Normal (js_le_zero coerced_le_zero v)
  end.

(** [!product_id || !quantity || quantity <= 0], left to right. *)
Definition item_guard (coerced_le_zero : jsval -> bool) (product_id quantity : jsval)
  : completion bool :=
  if negb (truthy product_id) then Normal true
  else if negb (truthy quantity) then Normal true
  else le_zero coerced_le_zero quantity.

(** ** Store queries issued by the handlers *)

Definition rows_of {A} (d : option (list A)) : list A :=
  match d with Some l => l | None => [] end.

Definition is_empty {A} (l : list A) : bool :=
  match l with [] => true | _ :: _ => false end.

Record NewCart := mkNewCart {
  nc_user_id : jsval; nc_product_id : jsval; nc_size_id : jsval; nc_quantity : jsval }.

Record NewItem := mkNewItem {
  ni_order_id : jsval; ni_product_id : jsval; ni_size_id : jsval; ni_quantity : jsval }.

Definition set_cart (d : Db) (c : list CartRow) (n : Z) : Db :=
  mkDb c (orders d) (orderitems d) (products d) (product_sizes d) (superusers d)
       n (next_order_id d) (next_item_id d) (db_now d) (eq_text d).

Definition set_orders (d : Db) (o : list OrderRow) (n : Z) : Db :=
  mkDb (cart d) o (orderitems d) (products d) (product_sizes d) (superusers d)
       (next_cart_id d) n (next_item_id d) (db_now d) (eq_text d).

Definition set_orderitems (d : Db) (i : list OrderItemRow) (n : Z) : Db :=
  mkDb (cart d) (orders d) i (products d) (product_sizes d) (superusers d)
       (next_cart_id d) (next_order_id d) n (db_now d) (eq_text d).

(** The rows an insert into [orderitems] creates: the submitted columns,
    keyed from [n] upwards. *)
Fixpoint stamp_items (n : Z) (l : list NewItem) : list OrderItemRow :=
  match l with
  | [] => []
  | x :: l' =>
      mkItem (JNum n) (ni_order_id x) (ni_product_id x) (ni_size_id x) (ni_quantity x)
        :: stamp_items (n + 1) l'
  end.

Definition user_is (user_id : jsval) (c : CartRow) : bool :=
  jsval_eqb (c_user_id c) user_id.

(** [supabase.from('cart').select('*').eq('user_id', user_id)] *)
Definition cart_select_by_user (user_id : jsval) : M (sbres (list CartRow)) :=
  store_call TCart OpSelect (fun d => (sb_ok (filter (user_is user_id) (cart d)), d)).

(** [supabase.from('cart').insert([row]).select()] *)
Definition cart_insert (x : NewCart) : M (sbres (list CartRow)) :=
  store_call TCart OpInsert (fun d =>
    let row := mkCart (JNum (next_cart_id d)) (nc_user_id x) (nc_product_id x)
                      (nc_size_id x) (nc_quantity x) (db_now d) in
    (sb_ok [row], set_cart d (cart d ++ [row]) (next_cart_id d + 1))).

(** [supabase.from('cart').delete().eq('user_id', user_id)] *)
Definition cart_delete_by_user (user_id : jsval) : M (sbres unit) :=
  store_call TCart OpDelete (fun d =>
    (mkRes None false,
     set_cart d (filter (fun c => negb (user_is user_id c)) (cart d)) (next_cart_id d))).

(** [supabase.from('orders').insert([{ user_id, order_status: 'Pending',
    created_at }]).select().single()] *)
Definition orders_insert (user_id : jsval) (created_at : string) : M (sbres OrderRow) :=
  store_call TOrders OpInsert (fun d =>
    let row := mkOrder (JNum (next_order_id d)) user_id (JStr "Pending") (JStr created_at) in
    (single [row], set_orders d (orders d ++ [row]) (next_order_id d + 1))).

(** [supabase.from('orderitems').insert(rows).select()] *)
Definition orderitems_insert (l : list NewItem) : M (sbres (list OrderItemRow)) :=
  store_call TOrderItems OpInsert (fun d =>
    let rows := stamp_items (next_item_id d) l in
    (sb_ok rows,
     set_orderitems d (orderitems d ++ rows) (next_item_id d + Z.of_nat (List.length l)))).

(** [supabase.from('products').select(`id, title`).eq('id', id).single()] *)
Definition products_single (id : jsval) : M (sbres ProductRow) :=
  text <- lift (sent_text id) ;;
  store_call TProducts OpSelect (fun d =>
    (single (filter (fun p => eq_text d (p_id p) text) (products d)), d)).

(** [supabase.from('product_sizes').select(`size_id`).eq('product_id', pid)
    .eq('size_id', sid).single()] *)
Definition product_sizes_single (pid sid : jsval) : M (sbres ProductSizeRow) :=
  tp <- lift (sent_text pid) ;;
  ts <- lift (sent_text sid) ;;
  store_call TProductSizes OpSelect (fun d =>
    (single (filter (fun r => eq_text d (ps_size_id r) ts)
               (filter (fun r => eq_text d (ps_product_id r) tp) (product_sizes d))), d)).

(** [supabase.from('superusers').select(..).eq('id', user_id).single()] *)
Definition superusers_single (user_id : jsval) : M (sbres SuperuserRow) :=
  text <- lift (sent_text user_id) ;;
  store_call TSuperusers OpSelect (fun d =>
    (single (filter (fun s => eq_text d (s_id s) text) (superusers d)), d)).

(** ** auth/cart.js *)

Module Cart.

Section Engine.
Variable coerced_le_zero : jsval -> bool.

(** [router.post('/add')], after
    [const { user_id, product_id, size_id, quantity } = req.body]. *)
Definition add (user_id product_id size_id quantity : jsval) : M unit :=
  try_catch
    (when (negb (truthy user_id) || negb (truthy product_id)
           || js_le_zero coerced_le_zero quantity)
       (respond 400 (BError "User ID, Product ID, and valid quantity are required.")) ;;;
     r <- cart_insert (mkNewCart user_id product_id
                                 (js_or size_id JNull) (js_or quantity (JNum 1))) ;;
     when (error r) (respond 500 (BError "Failed to add product to cart.")) ;;;
     match data r with
     | None => throw
     | Some rows =>
         respond 201 (BCartItem "Product added to cart successfully!" (hd_error rows))
     end)
    (respond 500 (BError "Internal server error.")).

End Engine.

(** The rows [cartItems.map(item => ({ order_id: orderId, ... }))] builds. *)
Definition to_order_item (orderId : jsval) (item : CartRow) : NewItem :=
  mkNewItem orderId (c_product_id item) (c_size_id item) (c_quantity item).

(** [router.post('/place-order')], after [const { user_id } = req.body];
    [now] is [new Date().toISOString()]. *)
Definition place_order (now : string) (user_id : jsval) : M unit :=
  try_catch
    (when (negb (truthy user_id))
       (respond 400 (BError "User ID is required to place an order.")) ;;;
     c <- cart_select_by_user user_id ;;
     when (error c || is_null (data c) || is_empty (rows_of (data c)))
       (respond 400 (BError "No items in the cart to place an order.")) ;;;
     o <- orders_insert user_id now ;;
     when (error o) (respond 500 (BError "Failed to create the order.")) ;;;
     orderId <- match data o with
                | Some orderData => ret (o_id orderData)
                | None => throw
                end ;;
     i <- orderitems_insert (map (to_order_item orderId) (rows_of (data c))) ;;
     when (error i) (respond 500 (BError "Failed to add items to the order.")) ;;;
     d <- cart_delete_by_user user_id ;;
     when (error d)
       (respond 500 (BError "Failed to clear the cart after placing the order.")) ;;;
     respond 201 (BPlaced "Order placed successfully!" (data o) (data i)))
    (respond 500 (BError "Internal server error.")).

End Cart.

(** ** auth/order.js *)

Module Order.

(** [isSuperUser]: the logging calls are left out. *)
Definition isSuperUser (user_id : jsval) : M bool :=
  try_catch
    (r <- superusers_single user_id ;;
     if error r || is_null (data r) then ret false else ret true)
    (ret false).

Section Engine.
Variable coerced_le_zero : jsval -> bool.

(** The body of [for (const item of items)] up to the row it pushes onto
    [formattedItems]. *)
Definition check_item (orderId item : jsval) : M NewItem :=
  product_id <- lift (get_prop item "product_id") ;;
  quantity <- lift (get_prop item "quantity") ;;
  invalid <- lift (item_guard coerced_le_zero product_id quantity) ;;
  when invalid
    (respond 400 (BError "Each item must have a valid product_id and quantity.")) ;;;
  p <- products_single product_id ;;
  when (error p || is_null (data p)) (respond 404 (BProductNotFound product_id)) ;;;
  size_id <- lift (get_prop item "size_id") ;;
  (if truthy size_id then
     s <- product_sizes_single product_id size_id ;;
     when (error s || is_null (data s)) (respond 400 (BInvalidSize size_id product_id))
   else ret tt) ;;;
  ret (mkNewItem orderId product_id (js_or size_id JNull) quantity).

(** The loop: [formatted] is [formattedItems] so far, the result is the
    list after the last push. *)
Fixpoint format_items (orderId : jsval) (items : list jsval) (formatted : list NewItem)
  : M (list NewItem) :=
  match items with
  | [] => ret formatted
  | item :: rest =>
      x <- check_item orderId item ;;
      format_items orderId rest (formatted ++ [x])
  end.

(** [router.post('/')], after [const { user_id, items } = req.body]. *)
Definition create (now : string) (user_id items : jsval) : M unit :=
  (if negb (truthy user_id) || negb (truthy items) then
     respond 400 (BError "User ID and at least one item are required to create an order.")
   else
     len <- lift (get_prop items "length") ;;
     when (jsval_eqb len (JNum 0))
       (respond 400 (BError "User ID and at least one item are required to create an order."))) ;;;
  try_catch
    (o <- orders_insert user_id now ;;
     when (error o) (respond 500 (BError "Failed to create the order.")) ;;;
     orderId <- match data o with
                | Some orderData => ret (o_id orderData)
                | None => throw
                end ;;
     its <- lift (iterate items) ;;
     formattedItems <- format_items orderId its [] ;;
     i <- orderitems_insert formattedItems ;;
     when (error i) (respond 500 (BError "Failed to add items to the order.")) ;;;
     respond 201 (BCreated "Order created successfully!" (data o) (data i)))
    (respond 500 (BError "Internal server error.")).

End Engine.

End Order.

(** ** The size, category and product routers *)

Module Size.

(** [isSuperUser] of the size and category routers. *)
Definition isSuperUser (user_id : jsval) : M bool :=
  try_catch
    (r <- superusers_single user_id ;;
     if error r then ret false else ret (negb (is_null (data r))))
    (ret false).

End Size.

(** ** Vocabulary of the properties *)

(** The cart lines of a user, as the cart read of [place-order] selects
    them. *)
Definition user_lines (user_id : jsval) (d : Db) : list CartRow :=
  filter (user_is user_id) (cart d).

(** The order items that reference order [order_id]. *)
Definition items_of_order (order_id : jsval) (d : Db) : list OrderItemRow :=
  filter (fun i => jsval_eqb (oi_order_id i) order_id) (orderitems d).

Definition line_triple (c : CartRow) : jsval * jsval * jsval :=
  (c_product_id c, c_size_id c, c_quantity c).

Definition item_triple (i : OrderItemRow) : jsval * jsval * jsval :=
  (oi_product_id i, oi_size_id i, oi_quantity i).

(** Store calls issued between two worlds of one run. *)
Definition calls_between (w w' : world) : list (table * op_kind) :=
  skipn (List.length (trace w)) (trace w').

(** Primary keys handed out so far are below the counters, and order items
    reference orders that were handed out. *)
Definition keys_fresh (d : Db) : Prop :=
  Forall (fun i => forall n, oi_order_id i = JNum n -> n < next_order_id d) (orderitems d).

(** The product row and the product-size pair an item of [POST /api/orders]
    refers to. *)
Definition product_exists (d : Db) (product_id : jsval) : bool :=
  existsb (fun p => same_key d (p_id p) product_id) (products d).

Definition size_offered (d : Db) (product_id size_id : jsval) : bool :=
  existsb (fun r => same_key d (ps_product_id r) product_id
                    && same_key d (ps_size_id r) size_id) (product_sizes d).

(** The references of an item are valid: its product exists and, when it
    carries a size (a truthy [size_id]), the product is offered in it. *)
Definition references_valid (d : Db) (item : jsval) : bool :=
  match get_prop item "product_id", get_prop item "size_id" with
  | Normal product_id, Normal size_id =>
      product_exists d product_id
      && (if truthy size_id then size_offered d product_id size_id else true)
  | _, _ => false
  end.

(** An item that passes the handler's field check: its product id and its
    quantity are truthy and the quantity does not compare [<= 0]. *)
Definition well_formed_item (clz : jsval -> bool) (item : jsval) : bool :=
  match get_prop item "product_id", get_prop item "quantity" with
  | Normal product_id, Normal quantity =>
      match item_guard clz product_id quantity with
      | Normal invalid => negb invalid
      | Abrupt => false
      end
  | _, _ => false
  end.

(** The row [formattedItems.push] builds for an item. *)
Definition formatted_item (orderId item : jsval) : NewItem :=
  match get_prop item "product_id", get_prop item "size_id", get_prop item "quantity" with
  | Normal product_id, Normal size_id, Normal quantity =>
      mkNewItem orderId product_id (js_or size_id JNull) quantity
  | _, _, _ => mkNewItem orderId JUndefined JNull JUndefined
  end.

(** Key constraints of the catalog tables: no filter on [products.id]
    selects two products, and no filter on the pair [(product_id, size_id)]
    selects two rows of [product_sizes]. *)
Definition keys_unique (d : Db) : Prop :=
  (forall text,
     (List.length (filter (fun p => eq_text d (p_id p) text) (products d)) <= 1)%nat) /\
  (forall tp ts,
     (List.length (filter (fun r => eq_text d (ps_product_id r) tp
                                    && eq_text d (ps_size_id r) ts)
                     (product_sizes d)) <= 1)%nat).

(** From [w] to [w'] the tables did not change and only selects were
    issued. *)
Definition reads_only (w w' : world) : Prop :=
  db w' = db w /\
  exists reads, trace w' = trace w ++ reads /\
                Forall (fun c => is_write c = false) reads.

(** ** A concrete store

    The scenario of the specification: user [u1] holds two cart lines
    (product 5 without size, quantity 2; product 7 in size 3, quantity 1),
    another user holds one line. *)

Module Scenario.

Definition u1 : jsval := JStr "u1".

Definition shop : Db :=
  mkDb [ mkCart (JNum 1) u1 (JNum 5) JNull (JNum 2) (JStr "2025-01-01T10:00:00Z");
         mkCart (JNum 2) (JStr "u2") (JNum 9) JNull (JNum 4) (JStr "2025-01-01T10:05:00Z");
         mkCart (JNum 3) u1 (JNum 7) (JNum 3) (JNum 1) (JStr "2025-01-01T10:10:00Z") ]
       [] []
       [ mkProduct (JNum 5) (JStr "Shirt"); mkProduct (JNum 7) (JStr "Hat");
         mkProduct (JNum 9) (JStr "Scarf") ]
       [ mkPS (JNum 7) (JNum 3) ]
       [ mkSuper (JStr "root") ]
       4 1 1 (JStr "2025-01-02T00:00:00Z") matches_text.

(** The store before any call of the request, under fault schedule [fs]. *)
Definition start (fs : list fault) : world := mkWorld shop fs [].

Definition now : string := "2025-01-02T00:00:01Z".

(** An engine in which only the empty string converts to a number that is
    [<= 0]. *)
Definition engine (v : jsval) : bool :=
  match v with JStr s => String.eqb s EmptyString | _ => false end.

End Scenario.

(** * The other routes of the cart, order and size routers *)

(** ** Rows and responses *)

(** A row of [sizes]. *)
Record SizeRow := mkSize { sz_id : jsval; sz_size_name : jsval }.

(** A row of [messages]; [created_at] is the store's time stamp. *)
Record MessageRow := mkMessage {
  m_id : jsval; m_order_id : jsval; m_sender : jsval; m_message : jsval;
  m_created_at : Z }.

(** What [orderitems(product_id, quantity, size_id)] embeds in an order. *)
Record EmbeddedItem := mkEmbedded {
  ei_product_id : jsval; ei_quantity : jsval; ei_size_id : jsval }.

Record OrderWithItems := mkOrderWithItems {
  ow_order : OrderRow; ow_orderitems : list EmbeddedItem }.

(** A cart line as [POST /api/cart/fetch] selects it: the listed columns
    and the embedded [products] and [sizes] objects. *)
Record FetchedLine := mkFetched {
  fl_id : jsval; fl_product_id : jsval; fl_size_id : jsval; fl_quantity : jsval;
  fl_added_at : jsval; fl_products : jsval; fl_sizes : jsval }.

(** The JSON bodies of these routes.  [PStoreError msg] is [msg] followed by
    the store's own error message; [PNotice msg] is [{ message: msg }]. *)
Inductive reply_body :=
| PError (msg : string)
| PStoreError (msg : string)
| PNotice (msg : string)
| PFromBody (b : body)
| PCartItems (msg : string) (cart_items : option (list FetchedLine))
| PDeletedItem (msg : string) (deleted_item : option CartRow)
| PStatusUpdated (status_text : string) (order : option OrderRow)
| POrders (orders : option (list OrderWithItems))
| PAllOrders (msg : string) (orders : option (list OrderWithItems))
| PMessageSent (msg : string) (messageData : option (list MessageRow))
| PMessages (messages : option (list MessageRow))
| PSize (msg : string) (size : option SizeRow)
| PSizeDeleted (id_text : string)
| PProducts (size_id : jsval) (products : list jsval).

Record answer := mkAnswer { code : Z; content : reply_body }.

(** ** The store with the [sizes] and [messages] tables *)

Record Aux := mkAux {
  sizes : list SizeRow;
  messages : list MessageRow;
  next_size_id : Z;
  next_message_id : Z;
  clock : Z }.

Inductive xtable := XBase (t : table) | XSizes | XMessages.
Inductive xop := XSelect | XInsert | XUpdate | XDelete.

Definition xop_of (k : op_kind) : xop :=
  match k with OpSelect => XSelect | OpInsert => XInsert | OpDelete => XDelete end.

Definition is_xwrite (c : xtable * xop) : bool :=
  match snd c with XSelect => false | XInsert | XUpdate | XDelete => true end.

(** The first store beside the further tables; [calls] logs every store
    call of these routes in order. *)
Record xworld := mkX {
  base : world;
  aux : Aux;
  calls : list (xtable * xop) }.

(** ** The handler monad of these routes *)

Inductive outcome (A : Type) : Type :=
| Yield (a : A)
| Reply (r : answer)
| Raise.
Arguments Yield {A} a.
Arguments Reply {A} r.
Arguments Raise {A}.

Definition H (A : Type) : Type := xworld -> outcome A * xworld.

Definition yield {A} (a : A) : H A := fun x => (Yield a, x).

Definition and_then {A B} (m : H A) (k : A -> H B) : H B :=
  fun x =>
    match m x with
    | (Yield a, x') => k a x'
    | (Reply r, x') => (Reply r, x')
    | (Raise, x') => (Raise, x')
    end.

Definition reply {A} (c : Z) (p : reply_body) : H A :=
  fun x => (Reply (mkAnswer c p), x).

Definition raise {A} : H A := fun x => (Raise, x).

(** [try { m } catch (err) { h }] *)
Definition attempt {A} (m h : H A) : H A :=
  fun x =>
    match m x with
    | (Raise, x') => h x'
    | other => other
    end.

(** [if (c) { return ... }] *)
Definition guard (c : bool) (m : H unit) : H unit := if c then m else yield tt.

Definition lift_completion {A} (c : completion A) : H A :=
  match c with Normal a => yield a | Abrupt => raise end.

Notation "x <~ m ;; k" := (and_then m (fun x => k))
  (at level 61, m at next level, right associativity).
Notation "m ~~> k" := (and_then m (fun _ => k))
  (at level 61, right associativity).

Definition code_of {A} (o : outcome A) : option Z :=
  match o with Reply r => Some (code r) | _ => None end.

Definition content_of {A} (o : outcome A) : option reply_body :=
  match o with Reply r => Some (content r) | _ => None end.

(** A computation of the first monad, run on [base]; the store calls it
    makes are copied to [calls]. *)
Definition from_M {A} (m : M A) : H A :=
  fun x =>
    let w' := snd (m (base x)) in
    let x' := mkX w' (aux x)
                  (calls x ++ map (fun c => (XBase (fst c), xop_of (snd c)))
                                  (calls_between (base x) w')) in
    match fst (m (base x)) with
    | Val a => (Yield a, x')
    | Respond r => (Reply (mkAnswer (status r) (PFromBody (payload r))), x')
    | Throw => (Raise, x')
    end.

(** One awaited store call of these routes: it is logged, takes the next
    fault of the schedule, and only a call without fault runs [op]. *)
Definition xcall {A} (t : xtable) (k : xop) (op : Db * Aux -> sbres A * (Db * Aux))
  : H (sbres A) :=
  fun x =>
    let after (s : Db * Aux) :=
      mkX (mkWorld (fst s) (tl (faults (base x))) (trace (base x)))
          (snd s) (calls x ++ [(t, k)]) in
    let now := (db (base x), aux x) in
    match hd NoFault (faults (base x)) with
    | Rejects => (Raise, after now)
    | ReturnsError => (Yield sb_err, after now)
    | NoFault => (Yield (fst (op now)), after (snd (op now)))
    end.

(** A call on the first tables, a call on the further tables. *)
Definition db_call {A} (t : table) (k : xop) (op : Db -> sbres A * Db) : H (sbres A) :=
  xcall (XBase t) k (fun s => (fst (op (fst s)), (snd (op (fst s)), snd s))).

Definition aux_call {A} (t : xtable) (k : xop) (op : Aux -> sbres A * Aux) : H (sbres A) :=
  xcall t k (fun s => (fst (op (snd s)), (fst s, snd (op (snd s))))).

Definition set_sizes (a : Aux) (s : list SizeRow) (n : Z) : Aux :=
  mkAux s (messages a) n (next_message_id a) (clock a).

Definition set_messages (a : Aux) (m : list MessageRow) (n : Z) : Aux :=
  mkAux (sizes a) m (next_size_id a) n (clock a).

(** ** Store queries of these routes *)

Definition item_is (d : Db) (cart_item_id user_id : jsval) (c : CartRow) : bool :=
  same_key d (c_id c) cart_item_id && same_key d (c_user_id c) user_id.

(** [supabase.from('cart').select('*').eq('id', cart_item_id)
    .eq('user_id', user_id).single()] *)
Definition cart_select_item (cart_item_id user_id : jsval) : H (sbres CartRow) :=
  ti <~ lift_completion (sent_text cart_item_id) ;;
  tu <~ lift_completion (sent_text user_id) ;;
  db_call TCart XSelect (fun d =>
    (single (filter (fun c => eq_text d (c_user_id c) tu)
               (filter (fun c => eq_text d (c_id c) ti) (cart d))), d)).

(** [supabase.from('cart').delete().eq('id', cart_item_id)
    .eq('user_id', user_id)] *)
Definition cart_delete_item (cart_item_id user_id : jsval) : H (sbres unit) :=
  ti <~ lift_completion (sent_text cart_item_id) ;;
  tu <~ lift_completion (sent_text user_id) ;;
  db_call TCart XDelete (fun d =>
    (mkRes None false,
     set_cart d (filter (fun c => negb (eq_text d (c_id c) ti
                                        && eq_text d (c_user_id c) tu)) (cart d))
              (next_cart_id d))).

Definition with_status (st : jsval) (o : OrderRow) : OrderRow :=
  mkOrder (o_id o) (o_user_id o) st (o_created_at o).

(** [supabase.from('orders').update({ order_status }).eq('id', order_id)
    .select().single()]: a singular request that does not meet exactly one
    row is an error and changes nothing. *)
Definition orders_update_status (order_id st : jsval) : H (sbres OrderRow) :=
  text <~ lift_completion (sent_text order_id) ;;
  db_call TOrders XUpdate (fun d =>
    match filter (fun o => eq_text d (o_id o) text) (orders d) with
    | [o] =>
        (sb_ok (with_status st o),
         set_orders d
           (map (fun o => if eq_text d (o_id o) text then with_status st o else o)
                (orders d))
           (next_order_id d))
    | _ => (sb_err, d)
    end).

Definition embedded (i : OrderItemRow) : EmbeddedItem :=
  mkEmbedded (oi_product_id i) (oi_quantity i) (oi_size_id i).

Definition with_items (d : Db) (o : OrderRow) : OrderWithItems :=
  mkOrderWithItems o (map embedded (items_of_order (o_id o) d)).

(** [supabase.from('orders').select('*, orderitems(product_id, quantity,
    size_id)').eq('user_id', user_id)] *)
Definition orders_select_by_user (user_id : jsval) : H (sbres (list OrderWithItems)) :=
  text <~ lift_completion (sent_text user_id) ;;
  db_call TOrders XSelect (fun d =>
    (sb_ok (map (with_items d)
              (filter (fun o => eq_text d (o_user_id o) text) (orders d))), d)).

(** [supabase.from('orders').select('*, orderitems(product_id, quantity,
    size_id)')] *)
Definition orders_select_all : H (sbres (list OrderWithItems)) :=
  db_call TOrders XSelect (fun d => (sb_ok (map (with_items d) (orders d)), d)).

(** [supabase.from('messages').insert([{ order_id, sender, message }])
    .select()] *)
Definition messages_insert (order_id sender message : jsval) : H (sbres (list MessageRow)) :=
  aux_call XMessages XInsert (fun a =>
    let row := mkMessage (JNum (next_message_id a)) order_id sender message (clock a) in
    (sb_ok [row], set_messages a (messages a ++ [row]) (next_message_id a + 1))).

(** [.order('created_at', { ascending: true })] *)
Fixpoint insert_by_time (m : MessageRow) (l : list MessageRow) : list MessageRow :=
  match l with
  | [] => [m]
  | x :: l' =>
      if m_created_at m <? m_created_at x then m :: x :: l'
      else x :: insert_by_time m l'
  end.

Definition order_by_created_at (l : list MessageRow) : list MessageRow :=
  fold_right insert_by_time [] l.

(** [supabase.from('messages').select('*').eq('order_id', order_id)
    .order('created_at', { ascending: true })] *)
Definition messages_select (order_id : jsval) : H (sbres (list MessageRow)) :=
  text <~ lift_completion (sent_text order_id) ;;
  xcall XMessages XSelect (fun s =>
    (sb_ok (order_by_created_at
              (filter (fun m => eq_text (fst s) (m_order_id m) text) (messages (snd s)))),
     s)).

(** [supabase.from('sizes').insert([{ size_name }]).select()] *)
Definition sizes_insert (size_name : jsval) : H (sbres (list SizeRow)) :=
  aux_call XSizes XInsert (fun a =>
    let row := mkSize (JNum (next_size_id a)) size_name in
    (sb_ok [row], set_sizes a (sizes a ++ [row]) (next_size_id a + 1))).

(** [supabase.from('sizes').select('*').eq('id', id).single()] *)
Definition sizes_single (id : jsval) : H (sbres SizeRow) :=
  text <~ lift_completion (sent_text id) ;;
  xcall XSizes XSelect (fun s =>
    (single (filter (fun r => eq_text (fst s) (sz_id r) text) (sizes (snd s))), s)).

(** [supabase.from('sizes').delete().eq('id', id)] *)
Definition sizes_delete (id : jsval) : H (sbres unit) :=
  text <~ lift_completion (sent_text id) ;;
  xcall XSizes XDelete (fun s =>
    (mkRes None false,
     (fst s,
      set_sizes (snd s) (filter (fun r => negb (eq_text (fst s) (sz_id r) text))
                           (sizes (snd s)))
                (next_size_id (snd s))))).

(** A user the permission check accepts: the store selects exactly one
    row of [superusers] for the id. *)
Definition is_superuser (d : Db) (user_id : jsval) : bool :=
  match filter (fun s => same_key d (s_id s) user_id) (superusers d) with
  | [_] => true
  | _ => false
  end.

(** The time stamps of a list of messages never decrease. *)
Definition by_time (m1 m2 : MessageRow) : Prop := m_created_at m1 <= m_created_at m2.

(** ** The cart router: fetch and delete *)

Module CartRoutes.

Section Embedding.
(** The objects the store embeds for the [products] and [sizes] relations
    of a cart line, by product id and by size id. *)
Variable product_of size_of : jsval -> jsval.

Definition fetched (c : CartRow) : FetchedLine :=
  mkFetched (c_id c) (c_product_id c) (c_size_id c) (c_quantity c) (c_added_at c)
            (product_of (c_product_id c)) (size_of (c_size_id c)).

(** [supabase.from('cart').select(`id, product_id, size_id, quantity,
    added_at, products (...), sizes (...)`).eq('user_id', user_id)] *)
Definition cart_select_joined (user_id : jsval) : H (sbres (list FetchedLine)) :=
  db_call TCart XSelect (fun d =>
    (sb_ok (map fetched (filter (user_is user_id) (cart d))), d)).

(** [router.post('/fetch')], after [const { user_id } = req.body]. *)
Definition fetch (user_id : jsval) : H unit :=
  attempt
    (guard (negb (truthy user_id))
       (reply 400 (PError "User ID is required to fetch cart items.")) ~~>
     r <~ cart_select_joined user_id ;;
     guard (error r) (reply 500 (PError "Failed to fetch cart items.")) ~~>
     reply 200 (PCartItems "Cart items fetched successfully!" (data r)))
    (reply 500 (PError "Internal server error.")).

End Embedding.

(** [router.delete('/delete')], after
    [const { user_id, cart_item_id } = req.body]. *)
Definition delete (user_id cart_item_id : jsval) : H unit :=
  attempt
    (guard (negb (truthy user_id) || negb (truthy cart_item_id))
       (reply 400 (PError
          "User ID and Cart Item ID are required to delete a product from the cart.")) ~~>
     existing <~ cart_select_item cart_item_id user_id ;;
     guard (error existing || is_null (data existing))
       (reply 404 (PError "Cart item not found.")) ~~>
     d <~ cart_delete_item cart_item_id user_id ;;
     guard (error d) (reply 500 (PError "Failed to delete product from cart.")) ~~>
     reply 200 (PDeletedItem "Product removed from cart successfully!" (data existing)))
    (reply 500 (PError "Internal server error.")).

End CartRoutes.

(** ** The order router: status, listings and messages *)

Module OrderRoutes.

(** [router.put('/status')], after [const { order_id, status } = req.body];
    the message of the 200 is built with [${status}]. *)
Definition update_status (order_id st : jsval) : H unit :=
  guard (negb (truthy order_id)) (reply 400 (PError "Order ID is required.")) ~~>
  guard (negb (truthy st)) (reply 400 (PError "Order status is required.")) ~~>
  attempt
    (r <~ orders_update_status order_id st ;;
     guard (error r) (reply 500 (PError "Failed to update order status.")) ~~>
     guard (is_null (data r)) (reply 404 (PError "Order not found.")) ~~>
     text <~ lift_completion (sent_text st) ;;
     reply 200 (PStatusUpdated text (data r)))
    (reply 500 (PError "Internal server error.")).

(** [router.post('/user/orders')], after [const { user_id } = req.body]. *)
Definition user_orders (user_id : jsval) : H unit :=
  guard (negb (truthy user_id)) (reply 400 (PError "User ID is required.")) ~~>
  attempt
    (r <~ orders_select_by_user user_id ;;
     guard (error r) (reply 500 (PError "Failed to fetch orders for the user.")) ~~>
     guard (is_null (data r) || is_empty (rows_of (data r)))
       (reply 404 (PError "No orders found for this user.")) ~~>
     reply 200 (POrders (data r)))
    (reply 500 (PError "Internal server error.")).

(** [router.get('/all')] *)
Definition all : H unit :=
  attempt
    (r <~ orders_select_all ;;
     guard (error r) (reply 500 (PError "Failed to fetch all orders.")) ~~>
     guard (is_null (data r) || is_empty (rows_of (data r)))
       (reply 404 (PError "No orders found in the database.")) ~~>
     reply 200 (PAllOrders "Orders fetched successfully!" (data r)))
    (reply 500 (PError "Internal server error.")).

(** [router.post('/messages')], after
    [const { orderId, sender, message } = req.body]. *)
Definition send_message (orderId sender message : jsval) : H unit :=
  guard (negb (truthy orderId) || negb (truthy sender) || negb (truthy message))
    (reply 400 (PError "Order ID, sender, and message are required.")) ~~>
  attempt
    (r <~ messages_insert orderId sender message ;;
     guard (error r) (reply 500 (PError "Failed to send the message.")) ~~>
     reply 201 (PMessageSent "Message sent successfully!" (data r)))
    (reply 500 (PError "Internal server error.")).

(** [router.post('/messages/fetch')], after [const { order_id } = req.body]. *)
Definition fetch_messages (order_id : jsval) : H unit :=
  guard (negb (truthy order_id)) (reply 400 (PError "Order ID is required.")) ~~>
  attempt
    (r <~ messages_select order_id ;;
     guard (error r) (reply 500 (PError "Failed to fetch messages.")) ~~>
     guard (is_null (data r) || is_empty (rows_of (data r)))
       (reply 404 (PError "No messages found for this order.")) ~~>
     reply 200 (PMessages (data r)))
    (reply 500 (PError "Internal server error.")).

End OrderRoutes.

(** ** The size router *)

Module SizeRoutes.

Section Trim.
(** [String.prototype.trim] of the engine. *)
Variable trim : string -> string.

(** [size_name?.trim()]: [undefined] on [undefined] and [null], the trimmed
    string on a string, a TypeError on any other value, which has no [trim]
    to call. *)
Definition optional_trim (size_name : jsval) : completion jsval :=
  match size_name with
  | JUndefined | JNull => Normal JUndefined
  | JStr s => Normal (JStr (trim s))
  | JBool _ | JNum _ | JArr _ | JObj _ => Abrupt
  end.

(** [router.post('/add')], after [const { size_name, user_id } = req.body]. *)
Definition add (size_name user_id : jsval) : H unit :=
  attempt
    (guard (negb (truthy user_id)) (reply 400 (PError "User ID is required.")) ~~>
     isSuper <~ from_M (Size.isSuperUser user_id) ;;
     guard (negb isSuper) (reply 403 (PError "Only superusers can add sizes.")) ~~>
     trimmedName <~ lift_completion (optional_trim size_name) ;;
     guard (negb (truthy trimmedName)) (reply 400 (PError "Size name is required.")) ~~>
     r <~ sizes_insert trimmedName ;;
     guard (error r) (reply 500 (PStoreError "Failed to add size. Supabase error: ")) ~~>
     match data r with
     | None => raise
     | Some rows => reply 201 (PSize "Size added successfully!" (hd_error rows))
     end)
    (reply 500 (PError "Internal server error.")).

End Trim.

(** [router.delete('/delete')], after [const { id, user_id } = req.body];
    the message of the 200 is built with [${id}]. *)
Definition delete (id user_id : jsval) : H unit :=
  attempt
    (guard (negb (truthy user_id)) (reply 400 (PError "User ID is required.")) ~~>
     guard (negb (truthy id)) (reply 400 (PError "Size ID is required.")) ~~>
     isSuper <~ from_M (Size.isSuperUser user_id) ;;
     guard (negb isSuper) (reply 403 (PError "Only superusers can delete sizes.")) ~~>
     s <~ sizes_single id ;;
     guard (error s || is_null (data s)) (reply 404 (PError "Size not found.")) ~~>
     d <~ sizes_delete id ;;
     guard (error d) (reply 500 (PStoreError "Failed to delete size. Supabase error: ")) ~~>
     text <~ lift_completion (sent_text id) ;;
     reply 200 (PSizeDeleted text))
    (reply 500 (PError "Internal server error.")).

End SizeRoutes.

(** ** A concrete larger store *)

Module Backoffice.

Definition further : Aux :=
  mkAux [ mkSize (JNum 3) (JStr "M"); mkSize (JNum 4) (JStr "L") ]
        [ mkMessage (JNum 1) (JNum 8) (JStr "user") (JStr "second") 20;
          mkMessage (JNum 2) (JNum 8) (JStr "admin") (JStr "first") 10 ]
        5 3 30.

(** The scenario's store beside [further], under fault schedule [fs]. *)
Definition start (fs : list fault) : xworld := mkX (Scenario.start fs) further [].

(** A trim of leading and trailing spaces. *)
Fixpoint drop_spaces (s : string) : string :=
  match s with
  | String c s' => if Ascii.eqb c (Ascii.ascii_of_nat 32) then drop_spaces s' else s
  | EmptyString => s
  end.

Fixpoint rev_string (s acc : string) : string :=
  match s with
  | EmptyString => acc
  | String c s' => rev_string s' (String c acc)
  end.

Definition trim (s : string) : string :=
  rev_string (drop_spaces (rev_string (drop_spaces s) EmptyString)) EmptyString.

End Backoffice.

(** * Properties *)

(** ** Values *)

Lemma jsval_eqb_eq (a b : jsval) : jsval_eqb a b = true <-> a = b.
Proof.
  revert b. induction a as [ | | x | x | x | xs IH | fs IH ] using jsval_nested_ind;
    intros [ | | y | y | y | ys | gs ]; simpl; try (split; [discriminate | congruence]);
    try (split; reflexivity).
  - rewrite Bool.eqb_true_iff. split; congruence.
  - rewrite Z.eqb_eq. split; congruence.
  - rewrite String.eqb_eq. split; congruence.
  - revert ys. induction IH as [ | x xs Hx _ IHxs ]; intros [ | y ys ];
      try (split; [discriminate | congruence ]); try (split; reflexivity).
    rewrite andb_true_iff, Hx, IHxs. split.
    + intros [-> H]. congruence.
    + intros H. injection H as -> ->. split; reflexivity.
  - revert gs. induction IH as [ | [k x] fs Hx _ IHfs ]; intros [ | [l y] gs ];
      try (split; [discriminate | congruence ]); try (split; reflexivity).
    simpl in Hx. rewrite !andb_true_iff, String.eqb_eq, Hx, IHfs. split.
    + intros [[-> ->] H]. congruence.
    + intros H. injection H as -> -> ->. repeat split; reflexivity.
Qed.

Lemma jsval_eqb_refl (a : jsval) : jsval_eqb a a = true.
Proof. apply jsval_eqb_eq. reflexivity. Qed.

(** ** Store calls *)

Lemma single_some {A} (l : list A) x : data (single l) = Some x -> l = [x].
Proof.
  destruct l as [ | y [ | z l ] ]; simpl; try discriminate. congruence.
Qed.

Lemma single_error {A} (l : list A) : error (single l) = is_null (data (single l)).
Proof. destruct l as [ | y [ | z l ] ]; reflexivity. Qed.

Lemma filter_eqb_in {A} (f : A -> jsval) v l x :
  In x (filter (fun r => jsval_eqb (f r) v) l) <-> In x l /\ f x = v.
Proof. rewrite filter_In, jsval_eqb_eq. reflexivity. Qed.

Lemma filter_eqb_none {A} (f : A -> jsval) v l :
  (forall x, In x l -> f x <> v) -> filter (fun r => jsval_eqb (f r) v) l = [].
Proof.
  intros H. induction l as [ | y l IH ]; simpl; [ reflexivity | ].
  destruct (jsval_eqb (f y) v) eqn:E.
  - apply jsval_eqb_eq in E. exfalso. apply (H y); [ left; reflexivity | exact E ].
  - apply IH. intros x Hx. apply H. right. exact Hx.
Qed.

(** ** The superuser check *)

Lemma same_key_sent d column argument text :
  sent_text argument = Normal text -> same_key d column argument = eq_text d column text.
Proof. unfold same_key. intros ->. reflexivity. Qed.

Lemma filter_none {A} (p : A -> bool) l :
  (forall x, In x l -> p x = false) -> filter p l = [].
Proof.
  intros H. induction l as [ | a l IH ]; simpl; [ reflexivity | ].
  rewrite (H a (or_introl eq_refl)). apply IH. intros x Hx. apply H. right. exact Hx.
Qed.

(** C8: [isSuperUser] never throws and always returns a boolean, without
    touching the tables.  It returns [true] only if a row of [superusers]
    is one the store selects for the id the lookup asks for; it returns
    [false] when the store selects no row, when the lookup resolves to an error or rejects, and when the id
    cannot be written into the query, so that a caller sees the same value
    in all these cases.  The variant of the size and category routers
    returns the same value. *)
Theorem isSuperUser_boolean_collapsing (user_id : jsval) (w : world) :
  exists b : bool,
    fst (Order.isSuperUser user_id w) = Val b /\
    fst (Size.isSuperUser user_id w) = Val b /\
    db (snd (Order.isSuperUser user_id w)) = db w /\
    (b = true ->
     exists s, In s (superusers (db w)) /\ same_key (db w) (s_id s) user_id = true) /\
    ((forall s, In s (superusers (db w)) -> same_key (db w) (s_id s) user_id = false) ->
     b = false) /\
    (nth_fault 0 (faults w) <> NoFault -> b = false) /\
    (sent_text user_id = Abrupt -> b = false) /\
    (forall w0 : world,
        nth_fault 0 (faults w0) = NoFault ->
        (forall s, In s (superusers (db w0)) -> same_key (db w0) (s_id s) user_id = false) ->
        nth_fault 0 (faults w) <> NoFault ->
        fst (Order.isSuperUser user_id w0) = fst (Order.isSuperUser user_id w)).
Proof.
  unfold Order.isSuperUser, Size.isSuperUser, superusers_single, try_catch, bind, lift,
    store_call, ret, throw.
  destruct (sent_text user_id) as [ text | ] eqn:T; simpl.
  2: { exists false. repeat split; congruence. }
  assert (Hkey : forall d c, same_key d c user_id = eq_text d c text)
    by (intros d c; apply same_key_sent; exact T).
  destruct (hd NoFault (faults w)) eqn:F; simpl.
  - set (rows := filter (fun s => eq_text (db w) (s_id s) text) (superusers (db w))).
    rewrite single_error.
    destruct (data (single rows)) as [ s | ] eqn:D; simpl.
    + exists true. repeat split; try congruence.
      * intros _. exists s. apply single_some in D.
        assert (Hin : In s rows) by (rewrite D; left; reflexivity).
        apply filter_In in Hin. rewrite Hkey. exact Hin.
      * intros Habsent. apply single_some in D.
        assert (Hin : In s rows) by (rewrite D; left; reflexivity).
        apply filter_In in Hin. destruct Hin as [Hin Hid].
        rewrite <- Hkey, (Habsent s Hin) in Hid. discriminate.
    + exists false. repeat split; try congruence.
  - exists false. repeat split; try congruence.
    intros w0 F0 Habsent _. rewrite F0. simpl.
    rewrite filter_none; [ reflexivity | ].
    intros s Hs. rewrite <- Hkey. exact (Habsent s Hs).
  - exists false. repeat split; try congruence.
    intros w0 F0 Habsent _. rewrite F0. simpl.
    rewrite filter_none; [ reflexivity | ].
    intros s Hs. rewrite <- Hkey. exact (Habsent s Hs).
Qed.

Lemma isSuperUser_boolean_collapsing_witness :
  fst (Order.isSuperUser (JStr "mallory") (Scenario.start [])) = Val false /\
  fst (Order.isSuperUser (JStr "root") (Scenario.start [ReturnsError])) = Val false /\
  fst (Order.isSuperUser (JObj [("toString", JNum 0)]) (Scenario.start [])) = Val false /\
  fst (Order.isSuperUser (JArr [JStr "root"]) (Scenario.start [])) = Val true.
Proof.
  destruct (isSuperUser_boolean_collapsing (JStr "mallory") (Scenario.start []))
    as (b1 & E1 & _ & _ & _ & Habsent & _).
  destruct (isSuperUser_boolean_collapsing (JStr "root") (Scenario.start [ReturnsError]))
    as (b2 & E2 & _ & _ & _ & _ & Hfault & _).
  destruct (isSuperUser_boolean_collapsing (JObj [("toString", JNum 0)]) (Scenario.start []))
    as (b3 & E3 & _ & _ & _ & _ & _ & Hthrow & _).
  split; [ | split; [ | split ] ].
  - rewrite E1. f_equal. apply Habsent. simpl.
    intros s [ <- | [] ]. reflexivity.
  - rewrite E2. f_equal. apply Hfault. simpl. discriminate.
  - rewrite E3. f_equal. apply Hthrow. reflexivity.
  - reflexivity.
Defined.

(** ** Order placement from the cart *)


Lemma stamp_items_triples n orderId lines :
  map item_triple (stamp_items n (map (Cart.to_order_item orderId) lines))
  = map line_triple lines.
Proof.
  revert n. induction lines as [ | c lines IH ]; intros n; simpl; [ reflexivity | ].
  rewrite IH. reflexivity.
Qed.

Lemma stamp_items_order_id n orderId lines :
  Forall (fun i => oi_order_id i = orderId)
         (stamp_items n (map (Cart.to_order_item orderId) lines)).
Proof.
  revert n. induction lines as [ | c lines IH ]; intros n; simpl; constructor.
  - reflexivity.
  - apply IH.
Qed.

Lemma calls_between_app w w' l : trace w' = trace w ++ l -> calls_between w w' = l.
Proof.
  unfold calls_between. intros ->. rewrite skipn_app, skipn_all, Nat.sub_diag. reflexivity.
Qed.

Lemma items_of_order_fresh d :
  keys_fresh d -> items_of_order (JNum (next_order_id d)) d = [].
Proof.
  unfold keys_fresh, items_of_order. intros H.
  apply filter_eqb_none. intros i Hi E.
  rewrite Forall_forall in H. specialize (H i Hi _ E). lia.
Qed.


Lemma filter_neg_none {A} (p : A -> bool) l :
  filter p (filter (fun x => negb (p x)) l) = [].
Proof.
  induction l as [ | x l IH ]; simpl; [ reflexivity | ].
  destruct (p x) eqn:E; simpl; [ exact IH | ].
  rewrite E. exact IH.
Qed.

Ltac unfold_place_order :=
  unfold Cart.place_order, try_catch, bind, when, cart_select_by_user, orders_insert,
    orderitems_insert, cart_delete_by_user, store_call, respond, ret, throw, user_lines;
  simpl.

(** A 201 is reached only when the user id is present, the cart read
    returned lines and none of the four store calls met a fault. *)
Lemma place_order_201 now user_id w :
  status_of (fst (Cart.place_order now user_id w)) = Some 201 ->
  truthy user_id = true /\ user_lines user_id (db w) <> [] /\
  nth_fault 0 (faults w) = NoFault /\ nth_fault 1 (faults w) = NoFault /\
  nth_fault 2 (faults w) = NoFault /\ nth_fault 3 (faults w) = NoFault.
Proof.
  unfold_place_order.
  destruct (truthy user_id); simpl; [ | discriminate ].
  destruct (hd NoFault (faults w)) eqn:F0; simpl; try discriminate.
  destruct (filter (user_is user_id) (cart (db w))) as [ | c cs ] eqn:L; simpl;
    [ discriminate | ].
  destruct (hd NoFault (tl (faults w))) eqn:F1; simpl; try discriminate.
  destruct (hd NoFault (tl (tl (faults w)))) eqn:F2; simpl; try discriminate.
  destruct (hd NoFault (tl (tl (tl (faults w))))) eqn:F3; simpl; try discriminate.
  intros _. repeat split; congruence.
Qed.

(** The run without faults on a non-empty cart, step by step. *)
Lemma place_order_run now user_id w :
  truthy user_id = true -> user_lines user_id (db w) <> [] ->
  nth_fault 0 (faults w) = NoFault -> nth_fault 1 (faults w) = NoFault ->
  nth_fault 2 (faults w) = NoFault -> nth_fault 3 (faults w) = NoFault ->
  let o := mkOrder (JNum (next_order_id (db w))) user_id (JStr "Pending") (JStr now) in
  let new := stamp_items (next_item_id (db w))
               (map (Cart.to_order_item (o_id o)) (user_lines user_id (db w))) in
  let out := Cart.place_order now user_id w in
  fst out = Respond (mkResp 201 (BPlaced "Order placed successfully!" (Some o) (Some new))) /\
  orders (db (snd out)) = orders (db w) ++ [o] /\
  orderitems (db (snd out)) = orderitems (db w) ++ new /\
  cart (db (snd out)) = filter (fun c => negb (user_is user_id c)) (cart (db w)) /\
  trace (snd out) = trace w ++ [(TCart, OpSelect); (TOrders, OpInsert);
                                (TOrderItems, OpInsert); (TCart, OpDelete)].
Proof.
  unfold_place_order. intros Hu Hl F0 F1 F2 F3. rewrite Hu. simpl.
  rewrite F0. simpl.
  destruct (filter (user_is user_id) (cart (db w))) as [ | c cs ] eqn:L; [ congruence | ].
  simpl. rewrite F1. simpl. rewrite F2. simpl. rewrite F3. simpl.
  repeat split. rewrite <- !app_assoc. reflexivity.
Qed.



(** C2: when the cart read and the order insert succeeded and the batch
    insert into [orderitems] resolves to an error or rejects, the handler
    answers with an error (500); the order row it created is still in
    [orders], no order item was added (none references the order where keys
    are fresh), the cart is unchanged, and the insert is the last store call
    of the run: nothing is rolled back. *)
Theorem place_order_items_failure_orphans_order (now : string) (user_id : jsval) (w : world) :
  let out := Cart.place_order now user_id w in
  truthy user_id = true ->
  user_lines user_id (db w) <> [] ->
  nth_fault 0 (faults w) = NoFault ->
  nth_fault 1 (faults w) = NoFault ->
  nth_fault 2 (faults w) <> NoFault ->
  status_of (fst out) = Some 500 /\
  exists o : OrderRow,
    orders (db (snd out)) = orders (db w) ++ [o] /\
    o_user_id o = user_id /\
    orderitems (db (snd out)) = orderitems (db w) /\
    (keys_fresh (db w) -> items_of_order (o_id o) (db (snd out)) = []) /\
    cart (db (snd out)) = cart (db w) /\
    calls_between w (snd out)
      = [(TCart, OpSelect); (TOrders, OpInsert); (TOrderItems, OpInsert)].
Proof.
  intros out. subst out. unfold_place_order. intros Hu Hl F0 F1 F2.
  rewrite Hu. simpl. rewrite F0. simpl.
  destruct (filter (user_is user_id) (cart (db w))) as [ | c cs ] eqn:L; [ congruence | ].
  simpl. rewrite F1. simpl.
  destruct (hd NoFault (tl (tl (faults w)))) eqn:F2'; [ congruence | | ]; simpl.
  all: split; [ reflexivity | ].
  all: eexists; split; [ reflexivity | ]; split; [ reflexivity | ].
  all: split; [ reflexivity | ]; split; [ | split; [ reflexivity | ] ].
  all: try (intros Hfresh; apply (items_of_order_fresh _ Hfresh)).
  all: apply calls_between_app; simpl; rewrite <- !app_assoc; reflexivity.
Qed.

Lemma place_order_items_failure_orphans_order_witness :
  let out := Cart.place_order Scenario.now Scenario.u1
               (Scenario.start [NoFault; NoFault; ReturnsError]) in
  status_of (fst out) = Some 500 /\
  List.length (orders (db (snd out))) = 1%nat /\
  orderitems (db (snd out)) = [] /\
  cart (db (snd out)) = cart Scenario.shop.
Proof.
  destruct (place_order_items_failure_orphans_order Scenario.now Scenario.u1
              (Scenario.start [NoFault; NoFault; ReturnsError]))
    as (Hs & o & Ho & _ & Hi & _ & Hc & _); try reflexivity; try discriminate.
  intros out. split; [ exact Hs | ]. split; [ | split ].
  - exact (f_equal (@List.length OrderRow) Ho).
  - exact Hi.
  - exact Hc.
Defined.

(** C3: when the cart read of [POST /api/cart/place-order] yields no cart
    lines for the user (an empty array, or [data: null] with an error), the
    handler answers 400 and writes nothing: the tables are unchanged (no
    order, no order items, no cart line deleted) and no insert or delete was
    issued. *)
Theorem place_order_empty_cart_no_writes
    (now : string) (user_id : jsval) (w : world) (read : sbres (list CartRow)) :
  let out := Cart.place_order now user_id w in
  fst (cart_select_by_user user_id w) = Val read ->
  rows_of (data read) = [] ->
  status_of (fst out) = Some 400 /\
  db (snd out) = db w /\
  Forall (fun c => is_write c = false) (calls_between w (snd out)).
Proof.
  intros out. subst out. unfold_place_order.
  destruct (truthy user_id); simpl.
  - destruct (hd NoFault (faults w)) eqn:F0; simpl; intros Hread Hrows.
    + injection Hread as <-. simpl in Hrows. rewrite Hrows. simpl.
      split; [ reflexivity | split; [ reflexivity | ] ].
      rewrite (calls_between_app w _ [(TCart, OpSelect)]) by reflexivity.
      repeat constructor.
    + split; [ reflexivity | split; [ reflexivity | ] ].
      rewrite (calls_between_app w _ [(TCart, OpSelect)]) by reflexivity.
      repeat constructor.
    + discriminate.
  - intros _ _. split; [ reflexivity | split; [ reflexivity | ] ].
    rewrite (calls_between_app w _ []) by (simpl; rewrite app_nil_r; reflexivity).
    constructor.
Qed.

Lemma place_order_empty_cart_no_writes_witness :
  let out := Cart.place_order Scenario.now (JStr "u3") (Scenario.start []) in
  status_of (fst out) = Some 400 /\ db (snd out) = Scenario.shop.
Proof.
  intros out.
  destruct (place_order_empty_cart_no_writes Scenario.now (JStr "u3") (Scenario.start [])
              (sb_ok [])) as (Hs & Hd & _); [ reflexivity | reflexivity | ].
  split; [ exact Hs | exact Hd ].
Defined.






(** ** Adding to the cart *)

Ltac unfold_add :=
  unfold Cart.add, try_catch, bind, when, cart_insert, store_call, respond, ret, throw;
  simpl.

(** A 201 of [POST /api/cart/add] means the input passed the validation
    and the insert met no fault; the store then holds one more line. *)
Lemma add_201 clz user_id product_id size_id quantity w :
  let out := Cart.add clz user_id product_id size_id quantity w in
  let line := mkCart (JNum (next_cart_id (db w))) user_id product_id
                     (js_or size_id JNull) (js_or quantity (JNum 1)) (db_now (db w)) in
  status_of (fst out) = Some 201 ->
  js_le_zero clz quantity = false /\
  db (snd out) = set_cart (db w) (cart (db w) ++ [line]) (next_cart_id (db w) + 1).
Proof.
  unfold_add.
  destruct (truthy user_id); simpl; [ | discriminate ].
  destruct (truthy product_id); simpl; [ | discriminate ].
  destruct (js_le_zero clz quantity); simpl; [ discriminate | ].
  destruct (hd NoFault (faults w)); simpl; try discriminate.
  intros _. split; reflexivity.
Qed.

(** A submitted quantity that passes [quantity <= 0] is truthy, so
    [quantity || 1] is that quantity. *)
Lemma submitted_quantity_kept clz quantity :
  clz (JStr EmptyString) = true ->
  js_le_zero clz quantity = false ->
  quantity <> JUndefined ->
  js_or quantity (JNum 1) = quantity.
Proof.
  intros Hempty Hle Hsub. unfold js_or.
  destruct quantity as [ | | b | n | s | l | fs ]; simpl in *;
    try congruence; try reflexivity.
  - destruct b; simpl in *; congruence.
  - destruct (Z.eqb_spec n 0) as [ -> | ]; simpl; [ discriminate | reflexivity ].
  - destruct (String.eqb_spec s EmptyString) as [ -> | ]; simpl; [ congruence | reflexivity ].
Qed.

(** C9: two successive successful [POST /api/cart/add] calls for the same
    user, product and size leave two new cart lines with different ids at
    the end of the cart, the lines that were there before unchanged; each
    new line carries the quantity submitted with its own call (1 for a call
    that submitted none).  Nothing is merged or incremented.  The engine
    fact used is that the empty string compares [<= 0]. *)
Theorem add_twice_appends_two_lines
    (clz : jsval -> bool) (user_id product_id size_id q1 q2 : jsval) (w : world) :
  let first := Cart.add clz user_id product_id size_id q1 w in
  let second := Cart.add clz user_id product_id size_id q2 (snd first) in
  clz (JStr EmptyString) = true ->
  status_of (fst first) = Some 201 ->
  status_of (fst second) = Some 201 ->
  exists l1 l2 : CartRow,
    cart (db (snd second)) = cart (db w) ++ [l1; l2] /\
    c_id l1 <> c_id l2 /\
    (c_user_id l1, c_product_id l1, c_size_id l1) = (user_id, product_id, js_or size_id JNull) /\
    (c_user_id l2, c_product_id l2, c_size_id l2) = (user_id, product_id, js_or size_id JNull) /\
    c_quantity l1 = js_or q1 (JNum 1) /\
    c_quantity l2 = js_or q2 (JNum 1) /\
    (q1 <> JUndefined -> c_quantity l1 = q1) /\
    (q2 <> JUndefined -> c_quantity l2 = q2).
Proof.
  intros first second Hempty H1 H2.
  destruct (add_201 clz user_id product_id size_id q1 w H1) as (Hq1 & Hd1).
  destruct (add_201 clz user_id product_id size_id q2 (snd first) H2) as (Hq2 & Hd2).
  fold first in Hd1. fold second in Hd2.
  rewrite Hd1 in Hd2. simpl in Hd2.
  eexists. eexists. split.
  - rewrite Hd2. simpl. rewrite <- app_assoc. reflexivity.
  - simpl. repeat split.
    + intros E. injection E. lia.
    + intros Hsub. apply (submitted_quantity_kept clz); assumption.
    + intros Hsub. apply (submitted_quantity_kept clz); assumption.
Qed.

Lemma add_twice_appends_two_lines_witness :
  let first := Cart.add Scenario.engine Scenario.u1 (JNum 5) JUndefined (JNum 2)
                 (Scenario.start []) in
  let second := Cart.add Scenario.engine Scenario.u1 (JNum 5) JUndefined (JNum 2)
                  (snd first) in
  exists l1 l2 : CartRow,
    cart (db (snd second)) = cart Scenario.shop ++ [l1; l2] /\
    c_id l1 <> c_id l2 /\ c_quantity l1 = JNum 2 /\ c_quantity l2 = JNum 2.
Proof.
  intros first second.
  destruct (add_twice_appends_two_lines Scenario.engine Scenario.u1 (JNum 5) JUndefined
              (JNum 2) (JNum 2) (Scenario.start []))
    as (l1 & l2 & Hc & Hid & _ & _ & _ & _ & Hq1 & Hq2); try reflexivity.
  exists l1, l2. split; [ exact Hc | ]. split; [ exact Hid | ].
  split; [ apply Hq1 | apply Hq2 ]; discriminate.
Defined.

(** C10: a [POST /api/cart/add] with [user_id] and [product_id] present and
    no [quantity] passes the validation, whose test [quantity <= 0] is false
    for an absent quantity: the answer is never 400, and when the insert
    meets no fault the answer is 201 and the cart has one more line, of
    quantity 1. *)
Theorem add_without_quantity_defaults_to_one
    (clz : jsval -> bool) (user_id product_id size_id : jsval) (w : world) :
  let out := Cart.add clz user_id product_id size_id JUndefined w in
  truthy user_id = true ->
  truthy product_id = true ->
  js_le_zero clz JUndefined = false /\
  status_of (fst out) <> Some 400 /\
  (nth_fault 0 (faults w) = NoFault ->
   exists line : CartRow,
     fst out = Respond (mkResp 201
                 (BCartItem "Product added to cart successfully!" (Some line))) /\
     cart (db (snd out)) = cart (db w) ++ [line] /\
     c_quantity line = JNum 1 /\
     (c_user_id line, c_product_id line, c_size_id line)
       = (user_id, product_id, js_or size_id JNull)).
Proof.
  intros out Hu Hp. subst out. unfold_add. rewrite Hu, Hp. simpl.
  split; [ reflexivity | ]. split.
  - destruct (hd NoFault (faults w)); simpl; discriminate.
  - intros F0. rewrite F0. simpl. eexists. repeat split.
Qed.

Lemma add_without_quantity_defaults_to_one_witness :
  exists line : CartRow,
    cart (db (snd (Cart.add Scenario.engine Scenario.u1 (JNum 9) (JNum 3) JUndefined
                     (Scenario.start []))))
      = cart Scenario.shop ++ [line] /\
    c_quantity line = JNum 1.
Proof.
  destruct (add_without_quantity_defaults_to_one Scenario.engine Scenario.u1 (JNum 9)
              (JNum 3) (Scenario.start []))
    as (_ & _ & H); try reflexivity.
  destruct H as (line & _ & Hc & Hq & _); [ reflexivity | ].
  exists line. split; [ exact Hc | exact Hq ].
Defined.

(** ** Order creation from an item list *)

Ltac unfold_check :=
  unfold Order.check_item, products_single, product_sizes_single, bind, lift, when,
    store_call, respond, ret, throw; simpl.

Lemma existsb_sent {A} d (f : A -> jsval) argument text l :
  sent_text argument = Normal text ->
  existsb (fun x => same_key d (f x) argument) l
  = existsb (fun x => eq_text d (f x) text) l.
Proof.
  intros H. induction l as [ | x l IH ]; simpl; [ reflexivity | ].
  rewrite IH, (same_key_sent _ _ _ _ H). reflexivity.
Qed.

Lemma existsb_sent2 {A} d (f g : A -> jsval) a b ta tb l :
  sent_text a = Normal ta -> sent_text b = Normal tb ->
  existsb (fun x => same_key d (f x) a && same_key d (g x) b) l
  = existsb (fun x => eq_text d (f x) ta && eq_text d (g x) tb) l.
Proof.
  intros Ha Hb. induction l as [ | x l IH ]; simpl; [ reflexivity | ].
  rewrite IH, (same_key_sent _ _ _ _ Ha), (same_key_sent _ _ _ _ Hb). reflexivity.
Qed.

(** The store selects a row for an argument only if the argument can be
    sent. *)
Lemma same_key_true_sent d column argument :
  same_key d column argument = true -> exists text, sent_text argument = Normal text.
Proof.
  unfold same_key. destruct (sent_text argument) as [ text | ]; [ | discriminate ].
  intros _. exists text. reflexivity.
Qed.

(** In a store that compares texts, rows that match one text carry the
    same key. *)
Lemma matches_text_key column column' text :
  matches_text column text = true -> matches_text column' text = true ->
  key_text column = key_text column'.
Proof.
  unfold matches_text.
  destruct (key_text column) as [ t | ]; [ | discriminate ].
  destruct (key_text column') as [ t' | ]; [ | discriminate ].
  intros H H'. apply String.eqb_eq in H, H'. congruence.
Qed.

Lemma existsb_of_filter {A} (p : A -> bool) l x : filter p l = [x] -> existsb p l = true.
Proof.
  intros H. apply existsb_exists. exists x.
  apply filter_In. rewrite H. left. reflexivity.
Qed.

Lemma filter_filter_and {A} (p q : A -> bool) l :
  filter q (filter p l) = filter (fun x => p x && q x) l.
Proof.
  induction l as [ | x l IH ]; simpl; [ reflexivity | ].
  destruct (p x); simpl; [ | exact IH ].
  destruct (q x); rewrite IH; reflexivity.
Qed.

Lemma filter_none_of_existsb {A} (p : A -> bool) l : existsb p l = false -> filter p l = [].
Proof.
  induction l as [ | x l IH ]; simpl; [ reflexivity | ].
  destruct (p x); simpl; [ discriminate | exact IH ].
Qed.

(** Under a key constraint a filter that matches matches one row. *)
Lemma filter_unique {A K} (key : A -> K) (p : A -> bool) l :
  NoDup (map key l) ->
  (forall x y, p x = true -> p y = true -> key x = key y) ->
  existsb p l = true ->
  exists x, filter p l = [x].
Proof.
  intros Hnd Hkey. induction l as [ | a l IH ]; simpl; [ discriminate | ].
  inversion Hnd as [ | ? ? Hnotin Hnd' ]; subst.
  destruct (p a) eqn:Ea; simpl.
  - intros _. exists a. f_equal. apply filter_none_of_existsb.
    destruct (existsb p l) eqn:Ex; [ | reflexivity ].
    apply existsb_exists in Ex. destruct Ex as (y & Hy & Py).
    exfalso. apply Hnotin. rewrite (Hkey a y Ea Py). apply in_map. exact Hy.
  - intros Ex. apply IH; assumption.
Qed.

(** A filter that selects at most one row and matches selects one row. *)
Lemma filter_at_most_one {A} (p : A -> bool) l :
  (List.length (filter p l) <= 1)%nat -> existsb p l = true -> exists x, filter p l = [x].
Proof.
  intros Hlen Hex. apply existsb_exists in Hex. destruct Hex as (x & Hx & Px).
  assert (Hin : In x (filter p l)) by (apply filter_In; split; assumption).
  destruct (filter p l) as [ | y [ | z r ] ]; simpl in *.
  - contradiction.
  - exists y. reflexivity.
  - lia.
Qed.

Lemma reads_only_refl w : reads_only w w.
Proof.
  split; [ reflexivity | ]. exists []. rewrite app_nil_r. split; [ reflexivity | constructor ].
Qed.

Lemma reads_only_trans w1 w2 w3 : reads_only w1 w2 -> reads_only w2 w3 -> reads_only w1 w3.
Proof.
  intros (Hd1 & r1 & Ht1 & Hr1) (Hd2 & r2 & Ht2 & Hr2). split; [ congruence | ].
  exists (r1 ++ r2). split.
  - rewrite Ht2, Ht1, app_assoc. reflexivity.
  - apply Forall_app. split; assumption.
Qed.

Lemma reads_only_select w f t d :
  d = db w -> reads_only w (mkWorld d f (trace w ++ [(t, OpSelect)])).
Proof.
  intros ->. split; [ reflexivity | ]. exists [(t, OpSelect)].
  split; [ reflexivity | repeat constructor ].
Qed.

Lemma reads_only_select2 w f t t' d :
  d = db w -> reads_only w (mkWorld d f ((trace w ++ [(t, OpSelect)]) ++ [(t', OpSelect)])).
Proof.
  intros ->. split; [ reflexivity | ]. exists [(t, OpSelect); (t', OpSelect)].
  split; [ rewrite <- app_assoc; reflexivity | repeat constructor ].
Qed.

Create HintDb store.
#[local] Hint Resolve reads_only_refl reads_only_select reads_only_select2 : store.

(** Whatever the faults, checking an item only reads, and it yields a row
    only for an item whose references are valid. *)
Lemma check_item_checks clz orderId item w :
  let out := Order.check_item clz orderId item w in
  reads_only w (snd out) /\
  (forall x, fst out = Val x ->
             references_valid (db w) item = true /\ x = formatted_item orderId item).
Proof.
  unfold references_valid, formatted_item, product_exists, size_offered. unfold_check.
  destruct (get_prop item "product_id") as [ pid | ]; simpl;
    [ | split; [ auto with store | discriminate ] ].
  destruct (get_prop item "quantity") as [ q | ]; simpl;
    [ | split; [ auto with store | discriminate ] ].
  destruct (item_guard clz pid q) as [ [ | ] | ]; simpl;
    try (split; [ auto with store | discriminate ]).
  destruct (sent_text pid) as [ tp | ] eqn:Tp; simpl;
    [ | split; [ auto with store | discriminate ] ].
  destruct (hd NoFault (faults w)); simpl;
    try (split; [ auto with store | discriminate ]).
  rewrite single_error.
  destruct (data (single _)) as [ p | ] eqn:Dp; simpl;
    [ | split; [ auto with store | discriminate ] ].
  apply single_some, existsb_of_filter in Dp.
  rewrite (existsb_sent _ p_id pid tp _ Tp), Dp.
  destruct (get_prop item "size_id") as [ sid | ]; simpl;
    [ | split; [ auto with store | discriminate ] ].
  destruct (truthy sid); simpl.
  - destruct (sent_text sid) as [ ts | ] eqn:Ts; simpl;
      [ | split; [ auto with store | discriminate ] ].
    destruct (hd NoFault (tl (faults w))); simpl;
      try (split; [ auto with store | discriminate ]).
    rewrite single_error.
    destruct (data (single _)) as [ r | ] eqn:Dr; simpl;
      [ | split; [ auto with store | discriminate ] ].
    apply single_some in Dr. rewrite filter_filter_and in Dr.
    apply existsb_of_filter in Dr.
    rewrite (existsb_sent2 _ ps_product_id ps_size_id pid sid tp ts _ Tp Ts), Dr.
    split; [ auto with store | ]. intros x [= <-]. split; reflexivity.
  - split; [ auto with store | ]. intros x [= <-]. split; reflexivity.
Qed.

(** The loop only reads, and it runs to its end only over items whose
    references are all valid; it then yields the formatted items in order. *)
Lemma format_items_checks clz orderId items :
  forall formatted w,
    let out := Order.format_items clz orderId items formatted w in
    reads_only w (snd out) /\
    (forall v, fst out = Val v ->
               forallb (references_valid (db w)) items = true /\
               v = formatted ++ map (formatted_item orderId) items).
Proof.
  induction items as [ | item rest IH ]; intros formatted w; simpl.
  - split; [ apply reads_only_refl | ]. intros v [= <-].
    rewrite app_nil_r. split; reflexivity.
  - unfold bind at 1 2.
    pose proof (check_item_checks clz orderId item w) as (Hr & Hv).
    destruct (Order.check_item clz orderId item w) as [ [ x | r | ] w1 ]; simpl in *.
    + destruct (Hv x eq_refl) as (Hval & ->). rewrite Hval. simpl.
      destruct (IH (formatted ++ [formatted_item orderId item]) w1) as (Hr' & Hv').
      split; [ exact (reads_only_trans _ _ _ Hr Hr') | ].
      intros v Ev. destruct (Hv' v Ev) as (Hall & ->).
      destruct Hr as (Hd & _). rewrite Hd in Hall.
      split; [ exact Hall | rewrite <- app_assoc; reflexivity ].
    + split; [ exact Hr | discriminate ].
    + split; [ exact Hr | discriminate ].
Qed.

Ltac unfold_create :=
  unfold Order.create, try_catch, bind, lift, when, orders_insert, orderitems_insert,
    store_call, respond, ret, throw; simpl.



(** Without faults and under the key constraints, the outcome of checking
    an item that passes the field check and whose product id can be sent
    is decided by its references. *)
Lemma check_item_fault_free clz orderId item pid sid q tp d tr :
  keys_unique d ->
  get_prop item "product_id" = Normal pid ->
  get_prop item "size_id" = Normal sid ->
  get_prop item "quantity" = Normal q ->
  item_guard clz pid q = Normal false ->
  sent_text pid = Normal tp ->
  exists reads,
    Forall (fun c => is_write c = false) reads /\
    Order.check_item clz orderId item (mkWorld d [] tr) =
    (if product_exists d pid then
       if truthy sid then
         match sent_text sid with
         | Normal _ =>
             if size_offered d pid sid
             then Val (mkNewItem orderId pid (js_or sid JNull) q)
             else Respond (mkResp 400 (BInvalidSize sid pid))
         | Abrupt => Throw
         end
       else Val (mkNewItem orderId pid (js_or sid JNull) q)
     else Respond (mkResp 404 (BProductNotFound pid)),
     mkWorld d [] (tr ++ reads)).
Proof.
  intros (Hkp & Hks) Ep Es Eq Hg Tp. unfold_check.
  rewrite Ep, Eq, Es. simpl. rewrite Hg, Tp. simpl.
  unfold product_exists, size_offered. rewrite (existsb_sent _ p_id pid tp _ Tp).
  destruct (existsb _ (products d)) eqn:Ex.
  - destruct (filter_at_most_one _ _ (Hkp tp) Ex) as (x & ->).
    simpl. destruct (truthy sid); simpl.
    + destruct (sent_text sid) as [ ts | ] eqn:Ts; simpl.
      * rewrite filter_filter_and.
        rewrite (existsb_sent2 _ ps_product_id ps_size_id pid sid tp ts _ Tp Ts).
        destruct (existsb _ (product_sizes d)) eqn:Es'.
        -- destruct (filter_at_most_one _ _ (Hks tp ts) Es') as (y & ->).
           simpl. exists [(TProducts, OpSelect); (TProductSizes, OpSelect)].
           split; [ repeat constructor | rewrite <- app_assoc; reflexivity ].
        -- rewrite (filter_none_of_existsb _ _ Es'). simpl.
           exists [(TProducts, OpSelect); (TProductSizes, OpSelect)].
           split; [ repeat constructor | rewrite <- app_assoc; reflexivity ].
      * exists [(TProducts, OpSelect)]. split; [ repeat constructor | reflexivity ].
    + exists [(TProducts, OpSelect)]. split; [ repeat constructor | reflexivity ].
  - rewrite (filter_none_of_existsb _ _ Ex). simpl.
    exists [(TProducts, OpSelect)]. split; [ repeat constructor | reflexivity ].
Qed.

Lemma product_exists_sent d pid :
  product_exists d pid = true -> exists tp, sent_text pid = Normal tp.
Proof.
  unfold product_exists. intros H. apply existsb_exists in H.
  destruct H as (p & _ & Hp). exact (same_key_true_sent _ _ _ Hp).
Qed.

Lemma size_offered_sent d pid sid :
  size_offered d pid sid = true -> exists ts, sent_text sid = Normal ts.
Proof.
  unfold size_offered. intros H. apply existsb_exists in H.
  destruct H as (r & _ & Hr). apply andb_true_iff in Hr.
  exact (same_key_true_sent _ _ _ (proj2 Hr)).
Qed.

Lemma accepted_fields clz d item :
  well_formed_item clz item = true ->
  references_valid d item = true ->
  exists pid sid q tp,
    get_prop item "product_id" = Normal pid /\
    get_prop item "size_id" = Normal sid /\
    get_prop item "quantity" = Normal q /\
    item_guard clz pid q = Normal false /\
    sent_text pid = Normal tp /\
    product_exists d pid = true /\
    (if truthy sid then size_offered d pid sid else true) = true.
Proof.
  unfold well_formed_item, references_valid.
  destruct (get_prop item "product_id") as [ pid | ]; [ | discriminate ].
  destruct (get_prop item "quantity") as [ q | ]; [ | discriminate ].
  destruct (get_prop item "size_id") as [ sid | ]; [ | discriminate ].
  intros Hwf Hval.
  apply andb_true_iff in Hval. destruct Hval as (Hex & Hsz).
  destruct (product_exists_sent d pid Hex) as (tp & Tp).
  exists pid, sid, q, tp.
  destruct (item_guard clz pid q) as [ [ | ] | ]; try discriminate.
  repeat split; assumption.
Qed.

(** Without faults the loop runs through a prefix of well-formed items with
    valid references and pushes their rows. *)
Lemma format_items_fault_free clz orderId d pre :
  keys_unique d ->
  forallb (fun item => well_formed_item clz item && references_valid d item) pre = true ->
  forall rest formatted tr,
  exists reads,
    Forall (fun c => is_write c = false) reads /\
    Order.format_items clz orderId (pre ++ rest) formatted (mkWorld d [] tr) =
    Order.format_items clz orderId rest (formatted ++ map (formatted_item orderId) pre)
      (mkWorld d [] (tr ++ reads)).
Proof.
  intros Hk. induction pre as [ | item pre IH ]; simpl; intros Hall rest formatted tr.
  - exists []. rewrite !app_nil_r. split; [ constructor | reflexivity ].
  - apply andb_true_iff in Hall. destruct Hall as (Hitem & Hall).
    apply andb_true_iff in Hitem. destruct Hitem as (Hwf & Hval).
    destruct (accepted_fields clz d item Hwf Hval)
      as (pid & sid & q & tp & Ep & Es & Eq & Hg & Tp & Hex & Hsz).
    destruct (check_item_fault_free clz orderId item pid sid q tp d tr Hk Ep Es Eq Hg Tp)
      as (r1 & Hr1 & Hstep).
    rewrite Hex in Hstep.
    assert (Hval' : Order.check_item clz orderId item (mkWorld d [] tr)
                    = (Val (mkNewItem orderId pid (js_or sid JNull) q),
                       mkWorld d [] (tr ++ r1))).
    { rewrite Hstep. destruct (truthy sid); [ | reflexivity ].
      destruct (size_offered_sent d pid sid Hsz) as (ts & ->). rewrite Hsz. reflexivity. }
    unfold bind at 1. rewrite Hval'.
    destruct (IH Hall rest (formatted ++ [mkNewItem orderId pid (js_or sid JNull) q])
                 (tr ++ r1)) as (r2 & Hr2 & Hrest).
    exists (r1 ++ r2). split; [ apply Forall_app; split; assumption | ].
    rewrite Hrest. unfold formatted_item at 2. rewrite Ep, Es, Eq.
    rewrite <- !app_assoc. reflexivity.
Qed.

(** The handler once the request passed the first validation and the order
    insert met no fault: the loop and the batch insert run in the store that
    holds the new order. *)
Lemma create_after_order_insert clz now user_id l w :
  truthy user_id = true -> l <> [] -> nth_fault 0 (faults w) = NoFault ->
  let o := mkOrder (JNum (next_order_id (db w))) user_id (JStr "Pending") (JStr now) in
  Order.create clz now user_id (JArr l) w =
  try_catch
    (formattedItems <- Order.format_items clz (o_id o) l [] ;;
     i <- orderitems_insert formattedItems ;;
     when (error i) (respond 500 (BError "Failed to add items to the order.")) ;;;
     respond 201 (BCreated "Order created successfully!" (Some o) (data i)))
    (respond 500 (BError "Internal server error."))
    (mkWorld (set_orders (db w) (orders (db w) ++ [o]) (next_order_id (db w) + 1))
             (tl (faults w)) (trace w ++ [(TOrders, OpInsert)])).
Proof.
  intros Hu Hl F0. simpl in F0.
  destruct l as [ | x l ]; [ congruence | ].
  unfold Order.create, try_catch, bind, lift, when, orders_insert, store_call, respond,
    ret, throw.
  rewrite Hu. simpl. rewrite F0. reflexivity.
Qed.


Lemma bind_respond_eq {A B} (m : M A) (k : A -> M B) w r w' :
  m w = (Respond r, w') -> bind m k w = (Respond r, w').
Proof. unfold bind. intros ->. reflexivity. Qed.


Lemma try_catch_respond_eq {A} (m h : M A) w r w' :
  m w = (Respond r, w') -> try_catch m h w = (Respond r, w').
Proof. unfold try_catch. intros ->. reflexivity. Qed.



Lemma unique_keys_at_most_one {A K} (key : A -> K) (p : A -> bool) l :
  NoDup (map key l) ->
  (forall x y, p x = true -> p y = true -> key x = key y) ->
  (List.length (filter p l) <= 1)%nat.
Proof.
  intros Hnd Hkey. destruct (existsb p l) eqn:Ex.
  - destruct (filter_unique key p l Hnd Hkey Ex) as (x & ->). simpl. lia.
  - rewrite (filter_none_of_existsb _ _ Ex). simpl. lia.
Qed.

Lemma shop_keys_unique : keys_unique Scenario.shop.
Proof.
  split.
  - intros text. apply (unique_keys_at_most_one (fun p => key_text (p_id p))).
    + vm_compute. repeat constructor; simpl; intuition discriminate.
    + intros a b Ha Hb. exact (matches_text_key _ _ _ Ha Hb).
  - intros tp ts.
    apply (unique_keys_at_most_one
             (fun r => (key_text (ps_product_id r), key_text (ps_size_id r)))).
    + vm_compute. repeat constructor; simpl; intuition discriminate.
    + intros a b Ha Hb. apply andb_true_iff in Ha, Hb.
      destruct Ha as (Ha1 & Ha2), Hb as (Hb1 & Hb2).
      rewrite (matches_text_key _ _ _ Ha1 Hb1), (matches_text_key _ _ _ Ha2 Hb2).
      reflexivity.
Qed.



(** ** Validation and store access *)

(** [POST /api/cart/place-order] without a user id is answered with 400
    before any store call. *)
Lemma place_order_validation_precedes_store now user_id w :
  truthy user_id = false ->
  status_of (fst (Cart.place_order now user_id w)) = Some 400 /\
  snd (Cart.place_order now user_id w) = w.
Proof.
  intros Hu. unfold_place_order. rewrite Hu. split; reflexivity.
Qed.

(** [POST /api/orders] without a user id, without items or with an item
    list of length 0 is answered with 400 before any store call. *)
Lemma create_request_validation_precedes_store clz now user_id items w :
  truthy user_id = false \/ truthy items = false
  \/ get_prop items "length" = Normal (JNum 0) ->
  status_of (fst (Order.create clz now user_id items w)) = Some 400 /\
  snd (Order.create clz now user_id items w) = w.
Proof.
  unfold_create. intros H.
  destruct (truthy user_id); simpl; [ | split; reflexivity ].
  destruct (truthy items) eqn:Hi; simpl; [ | split; reflexivity ].
  destruct H as [ H | [ H | H ] ]; try discriminate.
  rewrite H. simpl. split; reflexivity.
Qed.

(** An item whose fields can be read and that fails the handler's field
    check is turned down without a store call. *)
Lemma check_item_malformed clz orderId item pid q w :
  get_prop item "product_id" = Normal pid ->
  get_prop item "quantity" = Normal q ->
  item_guard clz pid q = Normal true ->
  Order.check_item clz orderId item w
  = (Respond (mkResp 400 (BError "Each item must have a valid product_id and quantity.")), w).
Proof.
  intros Ep Eq Hg. unfold_check. rewrite Ep, Eq. simpl. rewrite Hg. reflexivity.
Qed.

(** The 400 for an item that fails the validation is sent after the order
    insert and after reads only. *)
Lemma create_item_error_after_insert clz now user_id items w :
  let out := Order.create clz now user_id items w in
  fst out = Respond (mkResp 400
              (BError "Each item must have a valid product_id and quantity.")) ->
  exists o reads,
    orders (db (snd out)) = orders (db w) ++ [o] /\
    orderitems (db (snd out)) = orderitems (db w) /\
    cart (db (snd out)) = cart (db w) /\
    calls_between w (snd out) = (TOrders, OpInsert) :: reads /\
    Forall (fun c => is_write c = false) reads.
Proof.
  unfold_create.
  destruct (truthy user_id); simpl; [ | discriminate ].
  destruct (truthy items); simpl; [ | discriminate ].
  destruct (get_prop items "length") as [ len | ]; simpl; [ | discriminate ].
  destruct (jsval_eqb len (JNum 0)); simpl; [ discriminate | ].
  destruct (hd NoFault (faults w)); simpl; try discriminate.
  destruct (iterate items) as [ its | ]; simpl; [ | discriminate ].
  match goal with
  | |- context [Order.format_items ?a ?b ?c ?d ?e] =>
      pose proof (format_items_checks a b c d e) as (Hr & _);
      destruct (Order.format_items a b c d e) as [ [ v | r | ] w2 ]
  end; simpl in *.
  - destruct (hd NoFault (faults w2)); simpl; discriminate.
  - intros _. destruct Hr as (Hd & reads & Ht & Hreads). rewrite Hd. simpl.
    eexists. exists reads. repeat split; try assumption.
    apply calls_between_app. rewrite Ht. simpl. rewrite <- app_assoc. reflexivity.
  - discriminate.
Qed.

(** C6, as stated, fails on [POST /api/orders]: for the item list
    [[{ quantity: 2 }]], whose only item has no [product_id], the handler
    answers 400 "Each item must have a valid product_id and quantity."
    after it inserted an order row; the insert is a store write that
    precedes the validation error, and the row stays in [orders]. *)
Lemma create_item_validation_follows_order_insert :
  let items := JArr [JObj [("quantity", JNum 2)]] in
  let out := Order.create Scenario.engine Scenario.now Scenario.u1 items (Scenario.start []) in
  fst out = Respond (mkResp 400
              (BError "Each item must have a valid product_id and quantity.")) /\
  orders (db (snd out))
    = [mkOrder (JNum 1) Scenario.u1 (JStr "Pending") (JStr Scenario.now)] /\
  calls_between (Scenario.start []) (snd out) = [(TOrders, OpInsert)] /\
  exists c, In c (calls_between (Scenario.start []) (snd out)) /\ is_write c = true.
Proof.
  simpl. repeat split. exists (TOrders, OpInsert). split; [ left | ]; reflexivity.
Qed.

(** C6, amended: on both order endpoints a request-level validation error
    (a missing [user_id]; for [POST /api/orders] also a missing or empty
    item list) is answered with 400 before any store call, and the world is
    as it was.  In [POST /api/orders] the fields of an item are checked
    inside the item loop.  The answer 400 "Each item must have a valid
    product_id and quantity." is sent only after the order insert, which
    stays in [orders], and after reads only: no order item is inserted and
    no cart line is touched.  Without faults this answer is given for the
    first item of the list that is an object whose [product_id] is falsy,
    whose [quantity] is falsy, or whose [quantity] compares [<= 0], when
    the items before it pass the field check and have valid references.
    Nothing is claimed here for an item that is [null] or for a quantity
    that is truthy and does not compare [<= 0]. *)
Theorem validation_errors_and_store_access
    (clz : jsval -> bool) (now : string) (user_id items : jsval) (w : world) :
  let placed := Cart.place_order now user_id w in
  let out := Order.create clz now user_id items w in
  let item_error :=
    mkResp 400 (BError "Each item must have a valid product_id and quantity.") in
  (truthy user_id = false -> status_of (fst placed) = Some 400 /\ snd placed = w) /\
  (truthy user_id = false \/ truthy items = false
   \/ get_prop items "length" = Normal (JNum 0) ->
   status_of (fst out) = Some 400 /\ snd out = w) /\
  (fst out = Respond item_error ->
   exists o reads,
     orders (db (snd out)) = orders (db w) ++ [o] /\
     orderitems (db (snd out)) = orderitems (db w) /\
     cart (db (snd out)) = cart (db w) /\
     calls_between w (snd out) = (TOrders, OpInsert) :: reads /\
     Forall (fun c => is_write c = false) reads) /\
  (faults w = [] -> keys_unique (db w) -> truthy user_id = true ->
   forall pre fields post pid q,
     items = JArr (pre ++ JObj fields :: post) ->
     forallb (fun i => well_formed_item clz i && references_valid (db w) i) pre = true ->
     get_prop (JObj fields) "product_id" = Normal pid ->
     get_prop (JObj fields) "quantity" = Normal q ->
     truthy pid = false \/ truthy q = false \/ le_zero clz q = Normal true ->
     fst out = Respond item_error).
Proof.
  intros placed out item_error. subst placed out item_error.
  split; [ apply place_order_validation_precedes_store | ].
  split; [ apply create_request_validation_precedes_store | ].
  split; [ apply create_item_error_after_insert | ].
  intros Hf Hk Hu pre fields post pid q -> Hpre Ep Eq Hbad.
  assert (Hg : item_guard clz pid q = Normal true).
  { unfold item_guard. destruct (truthy pid); simpl; [ | reflexivity ].
    destruct (truthy q); simpl; [ | reflexivity ].
    destruct Hbad as [ H | [ H | H ] ]; try discriminate. exact H. }
  destruct w as [ d fs tr ]. simpl in Hf, Hk, Hpre |- *. subst fs.
  rewrite create_after_order_insert
    by (try assumption; try reflexivity; destruct pre; discriminate).
  destruct (format_items_fault_free clz (JNum (next_order_id d))
              (set_orders d
                 (orders d ++ [mkOrder (JNum (next_order_id d)) user_id (JStr "Pending")
                                       (JStr now)])
                 (next_order_id d + 1))
              pre Hk Hpre (JObj fields :: post) [] (tr ++ [(TOrders, OpInsert)]))
    as (reads & _ & Hloop).
  erewrite try_catch_respond_eq; [ reflexivity | ].
  apply bind_respond_eq. simpl. rewrite Hloop.
  change (Order.format_items clz ?o (?i :: ?r) ?f)
    with (bind (Order.check_item clz o i) (fun x => Order.format_items clz o r (f ++ [x]))).
  apply bind_respond_eq. apply (check_item_malformed clz _ (JObj fields) pid q); assumption.
Qed.

Lemma validation_errors_and_store_access_witness :
  let hat := JObj [("product_id", JStr "7"); ("size_id", JNum 3); ("quantity", JNum 1)] in
  let nothing := [("product_id", JNum 5); ("quantity", JNum 0)] in
  let w := Scenario.start [] in
  snd (Cart.place_order Scenario.now JNull w) = w /\
  snd (Order.create Scenario.engine Scenario.now Scenario.u1 (JArr []) w) = w /\
  status_of (fst (Order.create Scenario.engine Scenario.now Scenario.u1
                    (JArr [hat; JObj nothing]) w)) = Some 400 /\
  exists o, orders (db (snd (Order.create Scenario.engine Scenario.now Scenario.u1
                               (JArr [hat; JObj nothing]) w))) = [o].
Proof.
  intros hat nothing w.
  destruct (validation_errors_and_store_access Scenario.engine Scenario.now JNull JNull w)
    as (Hplace & _).
  destruct (validation_errors_and_store_access Scenario.engine Scenario.now Scenario.u1
              (JArr []) w) as (_ & Hreq & _).
  destruct (validation_errors_and_store_access Scenario.engine Scenario.now Scenario.u1
              (JArr [hat; JObj nothing]) w) as (_ & _ & Hafter & Hitem).
  pose proof (Hitem eq_refl shop_keys_unique eq_refl [hat] nothing [] (JNum 5) (JNum 0)
                eq_refl eq_refl eq_refl eq_refl (or_intror (or_intror eq_refl))) as Hresp.
  split; [ apply Hplace; reflexivity | ].
  split; [ apply Hreq; right; right; reflexivity | ].
  split; [ rewrite Hresp; reflexivity | ].
  destruct (Hafter Hresp) as (o & reads & Ho & _).
  exists o. exact Ho.
Defined.

(** * Further properties *)

(** ** Order placement and cart additions *)



(** The run in which only the cart clear fails. *)
Lemma place_order_clear_failure_run now user_id w :
  truthy user_id = true -> user_lines user_id (db w) <> [] ->
  nth_fault 0 (faults w) = NoFault -> nth_fault 1 (faults w) = NoFault ->
  nth_fault 2 (faults w) = NoFault -> nth_fault 3 (faults w) <> NoFault ->
  let o := mkOrder (JNum (next_order_id (db w))) user_id (JStr "Pending") (JStr now) in
  let new := stamp_items (next_item_id (db w))
               (map (Cart.to_order_item (o_id o)) (user_lines user_id (db w))) in
  let out := Cart.place_order now user_id w in
  status_of (fst out) = Some 500 /\
  db (snd out)
  = set_orderitems (set_orders (db w) (orders (db w) ++ [o]) (next_order_id (db w) + 1))
      (orderitems (db w) ++ new)
      (next_item_id (db w) + Z.of_nat (List.length (user_lines user_id (db w)))) /\
  faults (snd out) = tl (tl (tl (tl (faults w)))).
Proof.
  unfold_place_order. intros Hu Hl F0 F1 F2 F3. rewrite Hu. simpl. rewrite F0. simpl.
  destruct (filter (user_is user_id) (cart (db w))) as [ | c cs ] eqn:L; [ congruence | ].
  simpl. rewrite F1. simpl. rewrite F2. simpl.
  destruct (hd NoFault (tl (tl (tl (faults w))))); [ congruence | | ]; simpl;
    rewrite length_map; repeat split.
Qed.

(** X2: when only the cart clear fails, the request is answered with 500
    although the order and its items are stored and the cart is still full;
    a second request that meets no fault then stores a second order, with
    another id, whose items repeat the same cart lines. *)
Theorem place_order_retry_after_clear_failure
    (now now' : string) (user_id : jsval) (w : world) :
  let first := Cart.place_order now user_id w in
  let second := Cart.place_order now' user_id (snd first) in
  let lines := user_lines user_id (db w) in
  truthy user_id = true -> lines <> [] ->
  nth_fault 0 (faults w) = NoFault -> nth_fault 1 (faults w) = NoFault ->
  nth_fault 2 (faults w) = NoFault -> nth_fault 3 (faults w) <> NoFault ->
  nth_fault 4 (faults w) = NoFault -> nth_fault 5 (faults w) = NoFault ->
  nth_fault 6 (faults w) = NoFault -> nth_fault 7 (faults w) = NoFault ->
  status_of (fst first) = Some 500 /\
  cart (db (snd first)) = cart (db w) /\
  status_of (fst second) = Some 201 /\
  exists o1 o2 i1 i2,
    orders (db (snd second)) = orders (db w) ++ [o1; o2] /\
    o_id o1 <> o_id o2 /\
    orderitems (db (snd second)) = orderitems (db w) ++ i1 ++ i2 /\
    Forall (fun i => oi_order_id i = o_id o1) i1 /\
    Forall (fun i => oi_order_id i = o_id o2) i2 /\
    map item_triple i1 = map line_triple lines /\
    map item_triple i2 = map line_triple lines.
Proof.
  intros first second lines Hu Hl F0 F1 F2 F3 F4 F5 F6 F7.
  destruct (place_order_clear_failure_run now user_id w Hu Hl F0 F1 F2 F3)
    as (H500 & Hdb & Hfs).
  fold first in H500, Hdb, Hfs.
  assert (Hcart : cart (db (snd first)) = cart (db w)) by (rewrite Hdb; reflexivity).
  assert (Hlines : user_lines user_id (db (snd first)) = lines)
    by (unfold user_lines, lines; rewrite Hcart; reflexivity).
  destruct (place_order_run now' user_id (snd first)) as (Hr & Ho & Hi & _);
    try (rewrite Hfs; assumption); try assumption.
  { rewrite Hlines. exact Hl. }
  fold second in Hr, Ho, Hi.
  split; [ exact H500 | ]. split; [ exact Hcart | ].
  split; [ rewrite Hr; reflexivity | ].
  rewrite Hlines in Hi. rewrite Hdb in Ho, Hi. simpl in Ho, Hi.
  do 4 eexists. split; [ rewrite Ho, <- app_assoc; reflexivity | ].
  split; [ simpl; intros E; injection E; lia | ].
  split; [ rewrite Hi, <- app_assoc; reflexivity | ].
  split; [ apply stamp_items_order_id | ].
  split; [ apply stamp_items_order_id | ].
  split; apply stamp_items_triples.
Qed.

Lemma place_order_retry_after_clear_failure_witness :
  let first := Cart.place_order Scenario.now Scenario.u1
                 (Scenario.start [NoFault; NoFault; NoFault; Rejects]) in
  let second := Cart.place_order Scenario.now Scenario.u1 (snd first) in
  status_of (fst first) = Some 500 /\
  status_of (fst second) = Some 201 /\
  List.length (orders (db (snd second))) = 2%nat /\
  List.length (orderitems (db (snd second))) = 4%nat.
Proof.
  intros first second.
  destruct (place_order_retry_after_clear_failure Scenario.now Scenario.now Scenario.u1
              (Scenario.start [NoFault; NoFault; NoFault; Rejects]))
    as (H1 & _ & H2 & _); try reflexivity; try discriminate.
  split; [ exact H1 | ]. split; [ exact H2 | ]. split; reflexivity.
Defined.

(** X3: [POST /api/cart/add] stores a line exactly when it answers 201:
    then the cart is the old cart followed by the answered line, which
    carries the next key; with any other answer the tables are as before. *)
Theorem add_stores_line_exactly_on_201
    (clz : jsval -> bool) (user_id product_id size_id quantity : jsval) (w : world) :
  let out := Cart.add clz user_id product_id size_id quantity w in
  (exists line : CartRow,
     fst out = Respond (mkResp 201
                 (BCartItem "Product added to cart successfully!" (Some line))) /\
     db (snd out) = set_cart (db w) (cart (db w) ++ [line]) (next_cart_id (db w) + 1) /\
     c_id line = JNum (next_cart_id (db w)))
  \/ (status_of (fst out) <> Some 201 /\ db (snd out) = db w).
Proof.
  unfold_add.
  destruct (truthy user_id); simpl; [ | right; split; [ discriminate | reflexivity ] ].
  destruct (truthy product_id); simpl; [ | right; split; [ discriminate | reflexivity ] ].
  destruct (js_le_zero clz quantity); simpl;
    [ right; split; [ discriminate | reflexivity ] | ].
  destruct (hd NoFault (faults w)); simpl.
  - left. eexists. repeat split.
  - right. split; [ discriminate | reflexivity ].
  - right. split; [ discriminate | reflexivity ].
Qed.

(** X4: a quantity that is sent as [null], as [false] or as a number
    [<= 0] is answered with 400 before any store call (an absent quantity
    is not: it defaults to 1). *)
Theorem add_rejects_explicit_non_positive_quantity
    (clz : jsval -> bool) (user_id product_id size_id quantity : jsval) (w : world) :
  quantity = JNull \/ quantity = JBool false \/ (exists n, quantity = JNum n /\ n <= 0) ->
  Cart.add clz user_id product_id size_id quantity w
  = (Respond (mkResp 400
       (BError "User ID, Product ID, and valid quantity are required.")), w).
Proof.
  intros Hq.
  assert (Hle : js_le_zero clz quantity = true).
  { destruct Hq as [ -> | [ -> | (n & -> & Hn) ] ]; simpl; try reflexivity.
    apply Z.leb_le. exact Hn. }
  unfold_add. rewrite Hle, !orb_true_r. reflexivity.
Qed.

Lemma add_rejects_explicit_non_positive_quantity_witness :
  status_of (fst (Cart.add Scenario.engine Scenario.u1 (JNum 5) JUndefined JNull
                    (Scenario.start []))) = Some 400 /\
  status_of (fst (Cart.add Scenario.engine Scenario.u1 (JNum 5) JUndefined (JNum (-2))
                    (Scenario.start []))) = Some 400.
Proof.
  split.
  - rewrite (add_rejects_explicit_non_positive_quantity Scenario.engine Scenario.u1 (JNum 5)
               JUndefined JNull (Scenario.start [])); [ reflexivity | left; reflexivity ].
  - rewrite (add_rejects_explicit_non_positive_quantity Scenario.engine Scenario.u1 (JNum 5)
               JUndefined (JNum (-2)) (Scenario.start [])); [ reflexivity | ].
    right; right. exists (-2). split; [ reflexivity | lia ].
Defined.

(** ** Order creation from an item list, once more *)

(** X5: whatever the faults and whatever [items] is, [POST /api/orders]
    never changes the cart, [products], [product_sizes] or [superusers]; it
    adds at most one order and only appends to [orders] and [orderitems]. *)
Theorem create_frame
    (clz : jsval -> bool) (now : string) (user_id items : jsval) (w : world) :
  let out := Order.create clz now user_id items w in
  cart (db (snd out)) = cart (db w) /\
  products (db (snd out)) = products (db w) /\
  product_sizes (db (snd out)) = product_sizes (db w) /\
  superusers (db (snd out)) = superusers (db w) /\
  (exists o, orders (db (snd out)) = orders (db w) ++ o /\ (List.length o <= 1)%nat) /\
  (exists i, orderitems (db (snd out)) = orderitems (db w) ++ i).
Proof.
  assert (H0 : forall A (l : list A), exists o, l = l ++ o /\ (List.length o <= 1)%nat).
  { intros A l. exists []. rewrite app_nil_r. split; [ reflexivity | simpl; lia ]. }
  assert (H1 : forall A (l : list A) x, exists o, l ++ [x] = l ++ o /\ (List.length o <= 1)%nat).
  { intros A l x. exists [x]. split; [ reflexivity | simpl; lia ]. }
  assert (H2 : forall A (l : list A), exists o, l = l ++ o).
  { intros A l. exists []. rewrite app_nil_r. reflexivity. }
  assert (H3 : forall A (l n : list A), exists o, l ++ n = l ++ o).
  { intros A l n. exists n. reflexivity. }
  unfold_create.
  destruct (truthy user_id); simpl.
  2: { repeat match goal with |- _ /\ _ => split end; auto. }
  destruct (truthy items); simpl.
  2: { repeat match goal with |- _ /\ _ => split end; auto. }
  destruct (get_prop items "length") as [ len | ]; simpl.
  2: { repeat match goal with |- _ /\ _ => split end; auto. }
  destruct (jsval_eqb len (JNum 0)); simpl.
  { repeat match goal with |- _ /\ _ => split end; auto. }
  destruct (hd NoFault (faults w)); simpl.
  2, 3: repeat match goal with |- _ /\ _ => split end; auto.
  destruct (iterate items) as [ its | ]; simpl.
  2: { repeat match goal with |- _ /\ _ => split end; auto. }
  match goal with
  | |- context [Order.format_items ?a ?b ?c ?d ?e] =>
      pose proof (format_items_checks a b c d e) as ((Hd & _) & _);
      destruct (Order.format_items a b c d e) as [ [ v | r | ] w2 ]
  end; simpl in *.
  2, 3: rewrite Hd; simpl; repeat match goal with |- _ /\ _ => split end; auto.
  destruct (hd NoFault (faults w2)); simpl; rewrite Hd; simpl;
    repeat match goal with |- _ /\ _ => split end; auto.
Qed.

(** X6: an [items] value that passes the first validation but cannot be
    iterated (a number, [true], an object without a zero [length]) is
    answered with 500 "Internal server error." after the order insert: the
    order row is stored, no order item is, and the insert is the only store
    call. *)
Theorem create_items_not_iterable
    (clz : jsval -> bool) (now : string) (user_id items len : jsval) (w : world) :
  let out := Order.create clz now user_id items w in
  truthy user_id = true -> truthy items = true ->
  get_prop items "length" = Normal len -> len <> JNum 0 ->
  iterate items = Abrupt ->
  nth_fault 0 (faults w) = NoFault ->
  fst out = Respond (mkResp 500 (BError "Internal server error.")) /\
  orders (db (snd out))
  = orders (db w)
    ++ [mkOrder (JNum (next_order_id (db w))) user_id (JStr "Pending") (JStr now)] /\
  orderitems (db (snd out)) = orderitems (db w) /\
  calls_between w (snd out) = [(TOrders, OpInsert)].
Proof.
  intros out Hu Hi Hlen Hnz Hit F0. subst out. simpl in F0. unfold_create.
  rewrite Hu, Hi, Hlen. simpl.
  destruct (jsval_eqb len (JNum 0)) eqn:E; [ apply jsval_eqb_eq in E; congruence | ].
  simpl. rewrite F0. simpl. rewrite Hit. simpl.
  repeat split. apply calls_between_app. reflexivity.
Qed.

Lemma create_items_not_iterable_witness :
  let out := Order.create Scenario.engine Scenario.now Scenario.u1 (JNum 3)
               (Scenario.start []) in
  status_of (fst out) = Some 500 /\ List.length (orders (db (snd out))) = 1%nat.
Proof.
  intros out.
  destruct (create_items_not_iterable Scenario.engine Scenario.now Scenario.u1 (JNum 3)
              JUndefined (Scenario.start [])) as (Hr & Ho & _);
    try reflexivity; try discriminate.
  split; [ exact (f_equal status_of Hr) | exact (f_equal (@List.length OrderRow) Ho) ].
Defined.

(** ** The cart router: delete and fetch *)

Ltac unfold_routes :=
  unfold attempt, and_then, guard, reply, yield, raise, lift_completion, db_call, aux_call,
    xcall; simpl.

Lemma item_is_sent d cart_item_id user_id ti tu c :
  sent_text cart_item_id = Normal ti -> sent_text user_id = Normal tu ->
  item_is d cart_item_id user_id c
  = eq_text d (c_id c) ti && eq_text d (c_user_id c) tu.
Proof.
  intros Hi Hu. unfold item_is.
  rewrite (same_key_sent _ _ _ _ Hi), (same_key_sent _ _ _ _ Hu). reflexivity.
Qed.

(** X7: [DELETE /api/cart/delete] answers 200 only for a line of the cart
    that the store selects for the given id and the given user; the cart
    then loses exactly the lines the store selects for that id and user,
    and the answer returns the line.  With any other answer the tables are
    as before. *)
Theorem cart_delete_removes_only_the_own_line (user_id cart_item_id : jsval) (x : xworld) :
  let out := CartRoutes.delete user_id cart_item_id x in
  let d := db (base x) in
  (exists line : CartRow,
     fst out = Reply (mkAnswer 200
                 (PDeletedItem "Product removed from cart successfully!" (Some line))) /\
     In line (cart d) /\
     same_key d (c_id line) cart_item_id = true /\ same_key d (c_user_id line) user_id = true /\
     db (base (snd out))
     = set_cart d (filter (fun c => negb (item_is d cart_item_id user_id c)) (cart d))
         (next_cart_id d))
  \/ (code_of (fst out) <> Some 200 /\ db (base (snd out)) = d).
Proof.
  unfold CartRoutes.delete, cart_select_item, cart_delete_item. unfold_routes.
  destruct (truthy user_id); simpl; [ | right; split; [ discriminate | reflexivity ] ].
  destruct (truthy cart_item_id); simpl; [ | right; split; [ discriminate | reflexivity ] ].
  destruct (sent_text cart_item_id) as [ ti | ] eqn:Ti; simpl;
    [ | right; split; [ discriminate | reflexivity ] ].
  destruct (sent_text user_id) as [ tu | ] eqn:Tu; simpl;
    [ | right; split; [ discriminate | reflexivity ] ].
  destruct (hd NoFault (faults (base x))); simpl;
    try (right; split; [ discriminate | reflexivity ]).
  rewrite single_error.
  destruct (data (single _)) as [ line | ] eqn:D; simpl;
    [ | right; split; [ discriminate | reflexivity ] ].
  destruct (hd NoFault (tl (faults (base x)))); simpl;
    try (right; split; [ discriminate | reflexivity ]).
  left. exists line. apply single_some in D.
  assert (Hin : In line (filter (fun c => eq_text (db (base x)) (c_user_id c) tu)
                           (filter (fun c => eq_text (db (base x)) (c_id c) ti)
                              (cart (db (base x))))))
    by (rewrite D; left; reflexivity).
  apply filter_In in Hin. destruct Hin as (Hin & Hu).
  apply filter_In in Hin. destruct Hin as (Hin & Hi).
  rewrite (same_key_sent _ _ _ _ Ti), (same_key_sent _ _ _ _ Tu).
  repeat split; try assumption.
  f_equal. apply filter_ext. intros c. rewrite (item_is_sent _ _ _ _ _ c Ti Tu). reflexivity.
Qed.

(** In a store that compares texts, the id of a cart line may be given
    as a number or as the string that prints like it. *)
Lemma cart_delete_by_printed_id :
  let by_number := CartRoutes.delete Scenario.u1 (JNum 1) (Backoffice.start []) in
  let by_string := CartRoutes.delete Scenario.u1 (JStr "1") (Backoffice.start []) in
  code_of (fst by_string) = Some 200 /\
  fst by_string = fst by_number /\
  cart (db (base (snd by_string))) = cart (db (base (snd by_number))) /\
  List.length (cart (db (base (snd by_string)))) = 2%nat.
Proof. vm_compute. repeat split. Qed.

(** X8: a cart line that belongs to another user cannot be deleted: when
    both ids can be sent, no line the store selects for the given id is one
    it selects for the caller, and the lookup does not reject, the answer is
    404 "Cart item not found.", the tables are as before and the only store
    call is the lookup. *)
Theorem cart_delete_foreign_line_not_found
    (user_id cart_item_id : jsval) (ti tu : string) (x : xworld) :
  let out := CartRoutes.delete user_id cart_item_id x in
  let d := db (base x) in
  truthy user_id = true -> truthy cart_item_id = true ->
  sent_text cart_item_id = Normal ti -> sent_text user_id = Normal tu ->
  (forall c, In c (cart d) ->
             same_key d (c_id c) cart_item_id = true -> same_key d (c_user_id c) user_id = false) ->
  nth_fault 0 (faults (base x)) <> Rejects ->
  fst out = Reply (mkAnswer 404 (PError "Cart item not found.")) /\
  db (base (snd out)) = d /\
  calls (snd out) = calls x ++ [(XBase TCart, XSelect)].
Proof.
  intros out d Hu Hi Ti Tu Hforeign F0. subst out d. simpl in F0.
  unfold CartRoutes.delete, cart_select_item, cart_delete_item. unfold_routes.
  rewrite Hu, Hi. simpl. rewrite Ti, Tu. simpl.
  destruct (hd NoFault (faults (base x))); simpl; [ | repeat split | congruence ].
  rewrite (filter_none (fun c => eq_text (db (base x)) (c_user_id c) tu)).
  - repeat split.
  - intros c Hc. apply filter_In in Hc. destruct Hc as (Hc & Hid).
    rewrite <- (same_key_sent _ _ _ _ Tu). apply (Hforeign c Hc).
    rewrite (same_key_sent _ _ _ _ Ti). exact Hid.
Qed.

Lemma cart_delete_foreign_line_not_found_witness :
  let out := CartRoutes.delete Scenario.u1 (JStr "2") (Backoffice.start []) in
  code_of (fst out) = Some 404 /\ cart (db (base (snd out))) = cart Scenario.shop.
Proof.
  intros out.
  destruct (cart_delete_foreign_line_not_found Scenario.u1 (JStr "2") "2" "u1"
              (Backoffice.start []))
    as (Hr & Hd & _); try reflexivity; try discriminate.
  - simpl. intros c [ <- | [ <- | [ <- | [] ] ] ]; vm_compute; intros H;
      try reflexivity; discriminate.
  - split; [ exact (f_equal code_of Hr) | exact (f_equal cart Hd) ].
Defined.

Lemma add_201_line clz user_id product_id size_id quantity w msg line :
  fst (Cart.add clz user_id product_id size_id quantity w)
  = Respond (mkResp 201 (BCartItem msg (Some line))) ->
  truthy user_id = true /\
  line = mkCart (JNum (next_cart_id (db w))) user_id product_id
                (js_or size_id JNull) (js_or quantity (JNum 1)) (db_now (db w)) /\
  db (snd (Cart.add clz user_id product_id size_id quantity w))
  = set_cart (db w) (cart (db w) ++ [line]) (next_cart_id (db w) + 1) /\
  faults (snd (Cart.add clz user_id product_id size_id quantity w)) = tl (faults w).
Proof.
  unfold_add.
  destruct (truthy user_id); simpl; [ | discriminate ].
  destruct (truthy product_id); simpl; [ | discriminate ].
  destruct (js_le_zero clz quantity); simpl; [ discriminate | ].
  destruct (hd NoFault (faults w)); simpl; try discriminate.
  intros [= _ <-]. repeat split.
Qed.

Lemma filter_all_false {A} (p : A -> bool) l :
  (forall x, In x l -> p x = false) -> filter (fun x => negb (p x)) l = l.
Proof.
  intros H. induction l as [ | a l IH ]; simpl; [ reflexivity | ].
  rewrite (H a (or_introl eq_refl)). simpl. f_equal. apply IH.
  intros y Hy. apply H. right. exact Hy.
Qed.

(** X9: deleting the line a successful [POST /api/cart/add] answered
    restores the cart exactly, for a store that selects the new line for
    its own id and user id, whose next cart key is fresh (the store selects
    no earlier line for it) and not 0; the key counter is not set back. *)
Theorem cart_add_then_delete_restores_cart
    (clz : jsval -> bool) (user_id product_id size_id quantity : jsval) (w : world)
    (a : Aux) (log : list (xtable * xop)) (msg : string) (line : CartRow) :
  let added := Cart.add clz user_id product_id size_id quantity w in
  let out := CartRoutes.delete user_id (c_id line) (mkX (snd added) a log) in
  let next := JNum (next_cart_id (db w)) in
  fst added = Respond (mkResp 201 (BCartItem msg (Some line))) ->
  same_key (db w) user_id user_id = true ->
  same_key (db w) next next = true ->
  (forall c, In c (cart (db w)) -> same_key (db w) (c_id c) next = false) ->
  next_cart_id (db w) <> 0 ->
  nth_fault 1 (faults w) = NoFault -> nth_fault 2 (faults w) = NoFault ->
  fst out = Reply (mkAnswer 200
              (PDeletedItem "Product removed from cart successfully!" (Some line))) /\
  cart (db (base (snd out))) = cart (db w) /\
  next_cart_id (db (base (snd out))) = next_cart_id (db w) + 1.
Proof.
  intros added out next Hadd Huser Hnext Hfresh Hnz F1 F2. subst out next.
  destruct (add_201_line _ _ _ _ _ _ _ _ Hadd) as (Hu & Hline & Hdb & Hfs).
  fold added in Hdb, Hfs. simpl in F1, F2.
  remember (snd added) as w1 eqn:Ew1. clear Ew1 Hadd. clearbody added.
  destruct (same_key_true_sent _ _ _ Huser) as (tu & Tu).
  unfold CartRoutes.delete, cart_select_item, cart_delete_item. unfold_routes.
  assert (Hid : c_id line = JNum (next_cart_id (db w))) by (rewrite Hline; reflexivity).
  assert (Hown : c_user_id line = user_id) by (rewrite Hline; reflexivity).
  assert (Tn : sent_text (JNum (next_cart_id (db w)))
               = Normal (decimal (next_cart_id (db w)))) by reflexivity.
  assert (Hnone : forall c, In c (cart (db w)) ->
                    eq_text (db w) (c_id c) (decimal (next_cart_id (db w))) = false).
  { intros c Hc. rewrite <- (same_key_sent _ _ _ _ Tn). exact (Hfresh c Hc). }
  assert (Hmine : eq_text (db w) (c_id line) (decimal (next_cart_id (db w))) = true).
  { rewrite Hid, <- (same_key_sent _ _ _ _ Tn). exact Hnext. }
  assert (Hmine' : eq_text (db w) (c_user_id line) tu = true).
  { rewrite Hown, <- (same_key_sent _ _ _ _ Tu). exact Huser. }
  rewrite Hu, Hid. simpl.
  destruct (Z.eqb_spec (next_cart_id (db w)) 0) as [ E | _ ]; [ congruence | ]. simpl.
  rewrite Tu. simpl.
  rewrite Hfs, F1, Hdb. simpl. rewrite !filter_app. simpl.
  rewrite Hmine. simpl. rewrite Hmine'. simpl.
  rewrite (filter_none (fun c => eq_text (db w) (c_id c) (decimal (next_cart_id (db w))))
             _ Hnone). simpl.
  rewrite F2. simpl. rewrite filter_app. simpl. rewrite Hmine, Hmine'. simpl.
  rewrite (filter_all_false
             (fun c => eq_text (db w) (c_id c) (decimal (next_cart_id (db w)))
                       && eq_text (db w) (c_user_id c) tu)).
  - rewrite app_nil_r. repeat split.
  - intros c Hc. rewrite (Hnone c Hc). reflexivity.
Qed.

Lemma cart_add_then_delete_restores_cart_witness :
  let added := Cart.add Scenario.engine Scenario.u1 (JNum 9) JUndefined (JNum 2)
                 (Scenario.start []) in
  cart (db (base (snd (CartRoutes.delete Scenario.u1 (JNum 4)
                         (mkX (snd added) Backoffice.further [])))))
  = cart Scenario.shop.
Proof.
  intros added.
  assert (Hfresh : forall c, In c (cart Scenario.shop) ->
                     same_key Scenario.shop (c_id c) (JNum 4) = false).
  { simpl. intros c [ <- | [ <- | [ <- | [] ] ] ]; reflexivity. }
  assert (Hnz : 4 <> 0) by discriminate.
  exact (proj1 (proj2
    (cart_add_then_delete_restores_cart Scenario.engine Scenario.u1 (JNum 9)
       JUndefined (JNum 2) (Scenario.start []) Backoffice.further []
       "Product added to cart successfully!"
       (mkCart (JNum 4) Scenario.u1 (JNum 9) JNull (JNum 2) (JStr "2025-01-02T00:00:00Z"))
       eq_refl eq_refl eq_refl Hfresh Hnz eq_refl eq_refl))).
Defined.



Lemma place_order_201_world now user_id w :
  status_of (fst (Cart.place_order now user_id w)) = Some 201 ->
  user_lines user_id (db (snd (Cart.place_order now user_id w))) = [] /\
  faults (snd (Cart.place_order now user_id w)) = tl (tl (tl (tl (faults w)))).
Proof.
  unfold_place_order.
  destruct (truthy user_id); simpl; [ | discriminate ].
  destruct (hd NoFault (faults w)); simpl; try discriminate.
  destruct (filter (user_is user_id) (cart (db w))) as [ | c cs ]; simpl; [ discriminate | ].
  destruct (hd NoFault (tl (faults w))); simpl; try discriminate.
  destruct (hd NoFault (tl (tl (faults w)))); simpl; try discriminate.
  destruct (hd NoFault (tl (tl (tl (faults w))))); simpl; try discriminate.
  intros _. split; [ apply filter_neg_none | reflexivity ].
Qed.

(** X11: after a successful [POST /api/cart/place-order], a cart fetch
    for the same user that meets no fault answers 200 with an empty list. *)
Theorem cart_fetch_after_place_order_is_empty
    (product_of size_of : jsval -> jsval) (now : string) (user_id : jsval) (w : world)
    (a : Aux) (log : list (xtable * xop)) :
  let placed := Cart.place_order now user_id w in
  let out := CartRoutes.fetch product_of size_of user_id (mkX (snd placed) a log) in
  status_of (fst placed) = Some 201 ->
  nth_fault 4 (faults w) = NoFault ->
  fst out = Reply (mkAnswer 200 (PCartItems "Cart items fetched successfully!" (Some []))).
Proof.
  intros placed out H201 F4. subst out.
  destruct (place_order_201 now user_id w H201) as (Hu & _).
  destruct (place_order_201_world now user_id w H201) as (Hnone & Hfs).
  fold placed in Hnone, Hfs. simpl in F4.
  remember (snd placed) as w1 eqn:Ew1. clear Ew1.
  unfold CartRoutes.fetch, CartRoutes.cart_select_joined. unfold_routes.
  rewrite Hu. simpl. rewrite Hfs, F4. simpl.
  unfold user_lines in Hnone. rewrite Hnone. reflexivity.
Qed.

Lemma cart_fetch_after_place_order_is_empty_witness :
  let placed := Cart.place_order Scenario.now Scenario.u1 (Scenario.start []) in
  fst (CartRoutes.fetch (fun _ => JNull) (fun _ => JNull) Scenario.u1
         (mkX (snd placed) Backoffice.further []))
  = Reply (mkAnswer 200 (PCartItems "Cart items fetched successfully!" (Some []))).
Proof.
  intros placed.
  exact (cart_fetch_after_place_order_is_empty (fun _ => JNull) (fun _ => JNull)
           Scenario.now Scenario.u1 (Scenario.start []) Backoffice.further []
           eq_refl eq_refl).
Defined.

(** ** The order router: status updates *)

Lemma map_status_ids (p : OrderRow -> bool) st l :
  map o_id (map (fun o => if p o then with_status st o else o) l) = map o_id l /\
  map o_user_id (map (fun o => if p o then with_status st o else o) l) = map o_user_id l /\
  map o_created_at (map (fun o => if p o then with_status st o else o) l)
  = map o_created_at l.
Proof.
  induction l as [ | o l (IH1 & IH2 & IH3) ]; simpl; [ repeat split | ].
  rewrite IH1, IH2, IH3. destruct (p o); repeat split.
Qed.

(** X12: a status update for an id the store selects exactly one order for stores
    the new status on that order, any truthy status value being taken as it
    is; ids, owners and creation times of all orders, every other order,
    the order items and the cart are unchanged.  The answer is 200 with the
    order under its new status and the status printed into the message;
    when the status cannot be printed, the answer is 500 although the
    update is stored. *)
Theorem update_status_changes_only_that_status
    (order_id st : jsval) (x : xworld) (o : OrderRow) :
  let out := OrderRoutes.update_status order_id st x in
  let d := db (base x) in
  let d' := db (base (snd out)) in
  truthy order_id = true -> truthy st = true ->
  nth_fault 0 (faults (base x)) = NoFault ->
  filter (fun r => same_key d (o_id r) order_id) (orders d) = [o] ->
  (forall text, sent_text st = Normal text ->
     fst out = Reply (mkAnswer 200 (PStatusUpdated text (Some (with_status st o))))) /\
  (sent_text st = Abrupt ->
     fst out = Reply (mkAnswer 500 (PError "Internal server error."))) /\
  In (with_status st o) (orders d') /\
  map o_id (orders d') = map o_id (orders d) /\
  map o_user_id (orders d') = map o_user_id (orders d) /\
  map o_created_at (orders d') = map o_created_at (orders d) /\
  (forall r, In r (orders d) -> same_key d (o_id r) order_id = false -> In r (orders d')) /\
  (forall r, In r (orders d') -> same_key d (o_id r) order_id = true ->
             o_order_status r = st) /\
  orderitems d' = orderitems d /\ cart d' = cart d.
Proof.
  intros out d d' Ho Hs F0 Hone. subst out d d'. simpl in F0.
  assert (Hin : In o (orders (db (base x)))
                /\ same_key (db (base x)) (o_id o) order_id = true).
  { apply (filter_In (fun r => same_key (db (base x)) (o_id r) order_id)).
    rewrite Hone. left. reflexivity. }
  destruct Hin as (Hin & Hid).
  destruct (same_key_true_sent _ _ _ Hid) as (to & To).
  rewrite (filter_ext _ (fun r => eq_text (db (base x)) (o_id r) to)) in Hone
    by (intros r; apply same_key_sent; exact To).
  assert (Hkey : forall r, same_key (db (base x)) (o_id r) order_id
                           = eq_text (db (base x)) (o_id r) to)
    by (intros r; apply same_key_sent; exact To).
  rewrite Hkey in Hid.
  unfold OrderRoutes.update_status, orders_update_status. unfold_routes.
  rewrite Ho, Hs. simpl. rewrite To. simpl. rewrite F0. simpl. rewrite Hone. simpl.
  destruct (map_status_ids (fun r => eq_text (db (base x)) (o_id r) to) st (orders (db (base x))))
    as (H1 & H2 & H3).
  assert (Hstored : In (with_status st o)
            (map (fun r => if eq_text (db (base x)) (o_id r) to then with_status st r
                           else r)
                 (orders (db (base x))))).
  { apply in_map_iff. exists o. rewrite Hid. split; [ reflexivity | exact Hin ]. }
  assert (Hothers : forall r, In r (orders (db (base x))) ->
            same_key (db (base x)) (o_id r) order_id = false ->
            In r (map (fun r => if eq_text (db (base x)) (o_id r) to then with_status st r
                           else r)
                      (orders (db (base x))))).
  { intros r Hr Hne. apply in_map_iff. exists r. split; [ | exact Hr ].
    rewrite Hkey in Hne. rewrite Hne. reflexivity. }
  assert (Hstatus : forall r,
            In r (map (fun r => if eq_text (db (base x)) (o_id r) to then with_status st r
                           else r)
                      (orders (db (base x)))) ->
            same_key (db (base x)) (o_id r) order_id = true -> o_order_status r = st).
  { intros r Hr Hr'. rewrite Hkey in Hr'. apply in_map_iff in Hr.
    destruct Hr as (r0 & Hr0 & _).
    destruct (eq_text (db (base x)) (o_id r0) to) eqn:E; subst r; [ reflexivity | ].
    congruence. }
  destruct (sent_text st) as [ text | ] eqn:Ts; simpl.
  - split; [ intros t [= <-]; reflexivity | ].
    split; [ discriminate | ]. repeat split; assumption.
  - split; [ discriminate | ].
    split; [ reflexivity | ]. repeat split; assumption.
Qed.

Lemma update_status_changes_only_that_status_witness :
  let placed := Cart.place_order Scenario.now Scenario.u1 (Scenario.start []) in
  let out := OrderRoutes.update_status (JStr "1") (JStr "Shipped")
               (mkX (snd placed) Backoffice.further []) in
  let odd := OrderRoutes.update_status (JNum 1) (JObj [("toString", JNum 0)])
               (mkX (snd placed) Backoffice.further []) in
  code_of (fst out) = Some 200 /\
  map o_order_status (orders (db (base (snd out)))) = [JStr "Shipped"] /\
  List.length (orderitems (db (base (snd out)))) = 2%nat /\
  code_of (fst odd) = Some 500 /\
  map o_order_status (orders (db (base (snd odd)))) = [JObj [("toString", JNum 0)]].
Proof.
  intros placed out odd.
  destruct (update_status_changes_only_that_status (JStr "1") (JStr "Shipped")
              (mkX (snd placed) Backoffice.further [])
              (mkOrder (JNum 1) Scenario.u1 (JStr "Pending") (JStr Scenario.now))
              eq_refl eq_refl eq_refl eq_refl)
    as (Hr & _ & _ & _ & _ & _ & _ & _ & Hi & _).
  destruct (update_status_changes_only_that_status (JNum 1) (JObj [("toString", JNum 0)])
              (mkX (snd placed) Backoffice.further [])
              (mkOrder (JNum 1) Scenario.u1 (JStr "Pending") (JStr Scenario.now))
              eq_refl eq_refl eq_refl eq_refl)
    as (_ & Hodd & _).
  split; [ exact (f_equal code_of (Hr "Shipped" eq_refl)) | ].
  split; [ reflexivity | ].
  split; [ exact (f_equal (@List.length OrderItemRow) Hi) | ].
  split; [ exact (f_equal code_of (Hodd eq_refl)) | reflexivity ].
Defined.

(** X13: [PUT /api/orders/status] never answers 404: for an order id the
    store selects no order for, the singular update is an error, so the
    answer is 500 and the tables are as before. *)
Theorem update_status_unknown_order_is_500 (order_id st : jsval) (x : xworld) :
  let out := OrderRoutes.update_status order_id st x in
  code_of (fst out) <> Some 404 /\
  (truthy order_id = true -> truthy st = true ->
   (forall o, In o (orders (db (base x))) ->
              same_key (db (base x)) (o_id o) order_id = false) ->
   code_of (fst out) = Some 500 /\ db (base (snd out)) = db (base x)).
Proof.
  unfold OrderRoutes.update_status, orders_update_status. unfold_routes.
  destruct (truthy order_id); simpl; [ | split; [ discriminate | intros; discriminate ] ].
  destruct (truthy st); simpl; [ | split; [ discriminate | intros; discriminate ] ].
  destruct (sent_text order_id) as [ to | ] eqn:To; simpl;
    [ | split; [ discriminate | intros; split; reflexivity ] ].
  destruct (hd NoFault (faults (base x))); simpl;
    try (split; [ discriminate | intros; split; reflexivity ]).
  destruct (filter (fun o => eq_text (db (base x)) (o_id o) to) (orders (db (base x))))
    as [ | o [ | o' l ] ] eqn:E; simpl.
  - split; [ discriminate | intros; split; reflexivity ].
  - assert (Hin : In o (orders (db (base x)))
                  /\ eq_text (db (base x)) (o_id o) to = true).
    { apply (filter_In (fun o => eq_text (db (base x)) (o_id o) to)).
      rewrite E. left. reflexivity. }
    destruct Hin as (Hin & Hid).
    destruct (sent_text st); simpl; (split; [ discriminate | ]);
      intros _ _ Hnone; exfalso; specialize (Hnone o Hin);
      rewrite (same_key_sent _ _ _ _ To) in Hnone; congruence.
  - split; [ discriminate | intros; split; reflexivity ].
Qed.

Lemma update_status_unknown_order_is_500_witness :
  code_of (fst (OrderRoutes.update_status (JStr "77") (JStr "Shipped") (Backoffice.start [])))
  = Some 500.
Proof.
  destruct (update_status_unknown_order_is_500 (JStr "77") (JStr "Shipped")
              (Backoffice.start [])) as (_ & H).
  apply H; try reflexivity. simpl. intros o [].
Defined.

(** ** The order router: listings *)

(** X14: [POST /api/orders/user/orders] never changes the tables; a 200
    lists exactly the orders the store selects for the user id, in table
    order and at least one, each with the items that reference it; without
    fault, for a user id that can be sent and that the store selects no
    order for, the answer is 404. *)
Theorem user_orders_lists_own_orders_with_their_items (user_id : jsval) (x : xworld) :
  let out := OrderRoutes.user_orders user_id x in
  let d := db (base x) in
  db (base (snd out)) = d /\
  (code_of (fst out) = Some 200 ->
   exists l,
     content_of (fst out) = Some (POrders (Some l)) /\
     l <> [] /\
     map ow_order l = filter (fun o => same_key d (o_user_id o) user_id) (orders d) /\
     Forall (fun ow =>
               In (ow_order ow) (orders d) /\
               same_key d (o_user_id (ow_order ow)) user_id = true /\
               ow_orderitems ow = map embedded (items_of_order (o_id (ow_order ow)) d)) l) /\
  (truthy user_id = true -> nth_fault 0 (faults (base x)) = NoFault ->
   forall tu, sent_text user_id = Normal tu ->
   (forall o, In o (orders d) -> same_key d (o_user_id o) user_id = false) ->
   fst out = Reply (mkAnswer 404 (PError "No orders found for this user."))).
Proof.
  unfold OrderRoutes.user_orders, orders_select_by_user. unfold_routes.
  destruct (truthy user_id); simpl;
    [ | split; [ reflexivity | split; intros; discriminate ] ].
  destruct (sent_text user_id) as [ tu | ] eqn:Tu; simpl;
    [ | split; [ reflexivity | split; intros; discriminate ] ].
  destruct (hd NoFault (faults (base x))); simpl;
    try (split; [ reflexivity | split; intros; discriminate ]).
  rewrite (filter_ext (fun o => same_key (db (base x)) (o_user_id o) user_id)
             (fun o => eq_text (db (base x)) (o_user_id o) tu))
    by (intros o; apply same_key_sent; exact Tu).
  set (mine := filter (fun o => eq_text (db (base x)) (o_user_id o) tu)
                 (orders (db (base x)))).
  assert (Hmine : forall o, In o mine ->
            In o (orders (db (base x)))
            /\ same_key (db (base x)) (o_user_id o) user_id = true).
  { intros o Ho. apply filter_In in Ho. rewrite (same_key_sent _ _ _ _ Tu). exact Ho. }
  destruct mine as [ | o rest ] eqn:E; simpl.
  - split; [ reflexivity | split; [ discriminate | reflexivity ] ].
  - split; [ reflexivity | split ].
    + intros _. eexists. split; [ reflexivity | ]. split; [ discriminate | ].
      split; [ simpl; rewrite map_map; simpl; rewrite map_id; reflexivity | ].
      constructor.
      * simpl. destruct (Hmine o (or_introl eq_refl)) as (H1 & H2). repeat split; assumption.
      * apply Forall_forall. intros ow How. apply in_map_iff in How.
        destruct How as (o' & <- & Ho'). simpl.
        destruct (Hmine o' (or_intror Ho')) as (H1 & H2). repeat split; assumption.
    + intros _ _ tu' _ Hnone. exfalso.
      destruct (Hmine o (or_introl eq_refl)) as (H1 & H2).
      rewrite (Hnone o H1) in H2. discriminate.
Qed.

Lemma user_orders_lists_own_orders_with_their_items_witness :
  fst (OrderRoutes.user_orders (JArr [JStr "u1"]) (Backoffice.start []))
  = Reply (mkAnswer 404 (PError "No orders found for this user.")).
Proof.
  destruct (user_orders_lists_own_orders_with_their_items (JArr [JStr "u1"])
              (Backoffice.start []))
    as (_ & _ & H).
  apply (H eq_refl eq_refl "u1" eq_refl). simpl. intros o [].
Defined.

(** In a store that compares texts, the orders of a user are listed for
    every user id that prints like the stored one. *)
Lemma user_orders_by_printed_id :
  let placed := Cart.place_order Scenario.now Scenario.u1 (Scenario.start []) in
  let plain := OrderRoutes.user_orders Scenario.u1 (mkX (snd placed) Backoffice.further []) in
  let boxed := OrderRoutes.user_orders (JArr [JStr "u1"])
                 (mkX (snd placed) Backoffice.further []) in
  code_of (fst boxed) = Some 200 /\ fst boxed = fst plain.
Proof. vm_compute. split; reflexivity. Qed.




Lemma filter_disjoint_perm {A} (p q : A -> bool) l :
  (forall x, In x l -> p x = true -> q x = false) ->
  Permutation (filter p l ++ filter q l) (filter (fun x => p x || q x) l).
Proof.
  intros Hd. induction l as [ | a l IH ]; simpl; [ constructor | ].
  assert (IH' := IH (fun x Hx => Hd x (or_intror Hx))).
  destruct (p a) eqn:Ep; simpl.
  - rewrite (Hd a (or_introl eq_refl) Ep). constructor. exact IH'.
  - destruct (q a); simpl; [ | exact IH' ].
    apply Permutation_sym, Permutation_cons_app, Permutation_sym. exact IH'.
Qed.

Lemma filter_all_true {A} (p : A -> bool) l :
  (forall x, In x l -> p x = true) -> filter p l = l.
Proof.
  intros H. induction l as [ | a l IH ]; simpl; [ reflexivity | ].
  rewrite (H a (or_introl eq_refl)). f_equal. apply IH.
  intros y Hy. apply H. right. exact Hy.
Qed.

(** Grouping the order items by order loses none and repeats none, for
    orders with distinct ids. *)
Lemma items_grouped_by_order os items :
  NoDup (map o_id os) ->
  Permutation
    (List.concat (map (fun o => filter (fun i => jsval_eqb (oi_order_id i) (o_id o)) items) os))
    (filter (fun i => existsb (fun o => jsval_eqb (oi_order_id i) (o_id o)) os) items).
Proof.
  induction os as [ | o os IH ]; simpl; intros Hnd.
  - rewrite (filter_none_of_existsb (fun _ => false)); [ constructor | ].
    induction items; simpl; auto.
  - inversion Hnd as [ | ? ? Hnotin Hnd' ]; subst.
    eapply Permutation_trans;
      [ apply Permutation_app_head; exact (IH Hnd') | ].
    apply filter_disjoint_perm. intros i _ Hi.
    destruct (existsb _ os) eqn:Ex; [ | reflexivity ].
    apply existsb_exists in Ex. destruct Ex as (o' & Ho' & Hid).
    apply jsval_eqb_eq in Hi, Hid. exfalso. apply Hnotin.
    rewrite <- Hi, Hid. apply in_map. exact Ho'.
Qed.

(** X16: for orders with distinct ids and order items that each
    reference an order, [GET /api/orders/all] lists every order once, in
    table order, and the embedded items of the listing are the order items
    of the table, each exactly once. *)
Theorem all_orders_shows_every_item_once (x : xworld) :
  let out := OrderRoutes.all x in
  let d := db (base x) in
  NoDup (map o_id (orders d)) ->
  Forall (fun i => exists o, In o (orders d) /\ o_id o = oi_order_id i) (orderitems d) ->
  orders d <> [] ->
  nth_fault 0 (faults (base x)) = NoFault ->
  exists l,
    fst out = Reply (mkAnswer 200 (PAllOrders "Orders fetched successfully!" (Some l))) /\
    map ow_order l = orders d /\
    Permutation (List.concat (map ow_orderitems l)) (map embedded (orderitems d)) /\
    db (base (snd out)) = d.
Proof.
  intros out d Hnd Hfk Hne F0. subst out. simpl in F0.
  unfold OrderRoutes.all, orders_select_all. unfold_routes. rewrite F0. simpl.
  fold d.
  assert (Hlist : is_empty (map (with_items d) (orders d)) = false)
    by (destruct (orders d); [ congruence | reflexivity ]).
  rewrite Hlist. simpl. eexists. split; [ reflexivity | ].
  split; [ rewrite map_map; simpl; apply map_id | ]. split; [ | reflexivity ].
  rewrite map_map. unfold with_items, items_of_order. simpl.
  rewrite <- (map_map (fun o => filter (fun i => jsval_eqb (oi_order_id i) (o_id o))
                                  (orderitems d)) (map embedded)).
  rewrite <- List.concat_map. apply Permutation_map.
  eapply Permutation_trans; [ apply items_grouped_by_order; exact Hnd | ].
  rewrite filter_all_true; [ apply Permutation_refl | ].
  intros i Hi. rewrite Forall_forall in Hfk. destruct (Hfk i Hi) as (o' & Ho' & Hid).
  apply existsb_exists. exists o'. split; [ exact Ho' | ].
  rewrite Hid. apply jsval_eqb_refl.
Qed.

Lemma all_orders_shows_every_item_once_witness :
  let placed := Cart.place_order Scenario.now Scenario.u1 (Scenario.start []) in
  exists l,
    fst (OrderRoutes.all (mkX (snd placed) Backoffice.further []))
    = Reply (mkAnswer 200 (PAllOrders "Orders fetched successfully!" (Some l))) /\
    List.length (List.concat (map ow_orderitems l)) = 2%nat.
Proof.
  intros placed.
  destruct (all_orders_shows_every_item_once (mkX (snd placed) Backoffice.further []))
    as (l & Hr & _ & Hp & _).
  - simpl. repeat constructor. intros [].
  - simpl. repeat constructor; eexists; (split; [ left; reflexivity | reflexivity ]).
  - discriminate.
  - reflexivity.
  - exists l. split; [ exact Hr | ].
    rewrite (Permutation_length Hp). reflexivity.
Defined.

(** ** The order router: messages *)

Lemma insert_by_time_perm m l : Permutation (insert_by_time m l) (m :: l).
Proof.
  induction l as [ | x l IH ]; simpl; [ apply Permutation_refl | ].
  destruct (m_created_at m <? m_created_at x); [ apply Permutation_refl | ].
  eapply Permutation_trans; [ apply perm_skip; exact IH | apply perm_swap ].
Qed.

Lemma order_by_created_at_perm l : Permutation (order_by_created_at l) l.
Proof.
  induction l as [ | m l IH ]; simpl; [ constructor | ].
  eapply Permutation_trans; [ apply insert_by_time_perm | ].
  apply perm_skip. exact IH.
Qed.

Lemma insert_by_time_sorted m l : Sorted by_time l -> Sorted by_time (insert_by_time m l).
Proof.
  induction 1 as [ | x l Hs IH Hhd ]; simpl; [ repeat constructor | ].
  destruct (Z.ltb_spec (m_created_at m) (m_created_at x)) as [ Hlt | Hge ].
  - constructor; [ constructor; assumption | ]. constructor. unfold by_time. lia.
  - constructor; [ exact IH | ].
    destruct l as [ | y l ]; simpl.
    + constructor. exact Hge.
    + inversion Hhd; subst.
      destruct (m_created_at m <? m_created_at y); constructor; assumption.
Qed.

Lemma order_by_created_at_sorted l : Sorted by_time (order_by_created_at l).
Proof.
  induction l as [ | m l IH ]; simpl; [ constructor | ].
  apply insert_by_time_sorted. exact IH.
Qed.

(** X17: [POST /api/orders/messages/fetch] never changes the tables; a
    200 returns the messages the store selects for the order id, all of
    them and no other, sorted by creation time; without fault, for an order
    id that can be sent and that the store selects no message for, the
    answer is 404. *)
Theorem fetch_messages_sorted_messages_of_the_order (order_id : jsval) (x : xworld) :
  let out := OrderRoutes.fetch_messages order_id x in
  let mine := filter (fun m => same_key (db (base x)) (m_order_id m) order_id)
                (messages (aux x)) in
  aux (snd out) = aux x /\ db (base (snd out)) = db (base x) /\
  (code_of (fst out) = Some 200 ->
   exists l,
     content_of (fst out) = Some (PMessages (Some l)) /\
     l <> [] /\ Sorted by_time l /\ Permutation l mine) /\
  (truthy order_id = true -> nth_fault 0 (faults (base x)) = NoFault ->
   forall text, sent_text order_id = Normal text -> mine = [] ->
   fst out = Reply (mkAnswer 404 (PError "No messages found for this order."))).
Proof.
  unfold OrderRoutes.fetch_messages, messages_select. unfold_routes.
  destruct (truthy order_id); simpl;
    [ | repeat split; intros; discriminate ].
  destruct (sent_text order_id) as [ text | ] eqn:To; simpl;
    [ | repeat split; intros; discriminate ].
  destruct (hd NoFault (faults (base x))); simpl;
    try (repeat split; intros; discriminate).
  rewrite (filter_ext (fun m => same_key (db (base x)) (m_order_id m) order_id)
             (fun m => eq_text (db (base x)) (m_order_id m) text))
    by (intros m; apply same_key_sent; exact To).
  set (mine := filter (fun m => eq_text (db (base x)) (m_order_id m) text)
                 (messages (aux x))).
  pose proof (order_by_created_at_perm mine) as Hp.
  pose proof (order_by_created_at_sorted mine) as Hs.
  destruct (order_by_created_at mine) as [ | m l ] eqn:E; simpl.
  - repeat split; intros; try discriminate; reflexivity.
  - split; [ reflexivity | ]. split; [ reflexivity | ]. split.
    + intros _. eexists. split; [ reflexivity | ].
      split; [ discriminate | ]. split; assumption.
    + intros _ _ text' _ Hnone. rewrite Hnone in Hp. apply Permutation_sym in Hp.
      apply Permutation_nil in Hp. discriminate.
Qed.

Lemma fetch_messages_sorted_messages_of_the_order_witness :
  content_of (fst (OrderRoutes.fetch_messages (JStr "8") (Backoffice.start [])))
  = Some (PMessages (Some [ mkMessage (JNum 2) (JNum 8) (JStr "admin") (JStr "first") 10;
                            mkMessage (JNum 1) (JNum 8) (JStr "user") (JStr "second") 20 ])) /\
  fst (OrderRoutes.fetch_messages (JStr "9") (Backoffice.start []))
  = Reply (mkAnswer 404 (PError "No messages found for this order.")).
Proof.
  split; [ reflexivity | ].
  destruct (fetch_messages_sorted_messages_of_the_order (JStr "9") (Backoffice.start []))
    as (_ & _ & _ & H).
  apply (H eq_refl eq_refl "9"); reflexivity.
Defined.

(** X18: a message sent with [POST /api/orders/messages] is stored with
    the submitted order id, sender and text; in a store that selects the
    message for the order id it was stored with, a fetch for that order then
    answers 200 (never 404) with a list, sorted by creation time, that holds
    the new message beside the earlier ones the store selects for the
    order id. *)
Theorem send_message_then_fetch (orderId sender message : jsval) (x : xworld) :
  let sent := OrderRoutes.send_message orderId sender message x in
  let out := OrderRoutes.fetch_messages orderId (snd sent) in
  let row := mkMessage (JNum (next_message_id (aux x))) orderId sender message
                       (clock (aux x)) in
  truthy orderId = true -> truthy sender = true -> truthy message = true ->
  nth_fault 0 (faults (base x)) = NoFault ->
  nth_fault 1 (faults (base x)) = NoFault ->
  fst sent = Reply (mkAnswer 201 (PMessageSent "Message sent successfully!" (Some [row]))) /\
  messages (aux (snd sent)) = messages (aux x) ++ [row] /\
  (same_key (db (base x)) orderId orderId = true ->
   exists l,
     fst out = Reply (mkAnswer 200 (PMessages (Some l))) /\
     In row l /\ Sorted by_time l /\
     Permutation l
       (filter (fun m => same_key (db (base x)) (m_order_id m) orderId) (messages (aux x))
        ++ [row])).
Proof.
  intros sent out row Ho Hs Hm F0 F1. subst sent out. simpl in F0, F1.
  unfold OrderRoutes.send_message, messages_insert. unfold_routes.
  rewrite Ho, Hs, Hm. simpl. rewrite F0. simpl.
  split; [ reflexivity | ]. split; [ reflexivity | ].
  intros Hown. destruct (same_key_true_sent _ _ _ Hown) as (text & To).
  rewrite (same_key_sent _ _ _ _ To) in Hown.
  unfold OrderRoutes.fetch_messages, messages_select. unfold_routes.
  rewrite Ho. simpl. rewrite To. simpl. rewrite F1. simpl.
  rewrite filter_app. simpl. rewrite Hown. fold row.
  rewrite (filter_ext (fun m => same_key (db (base x)) (m_order_id m) orderId)
             (fun m => eq_text (db (base x)) (m_order_id m) text))
    by (intros m; apply same_key_sent; exact To).
  set (mine := filter (fun m => eq_text (db (base x)) (m_order_id m) text)
                 (messages (aux x))).
  pose proof (order_by_created_at_perm (mine ++ [row])) as Hp.
  pose proof (order_by_created_at_sorted (mine ++ [row])) as Hsorted.
  destruct (order_by_created_at (mine ++ [row])) as [ | m l ] eqn:E; simpl.
  - apply Permutation_nil in Hp. destruct mine; discriminate.
  - eexists. split; [ reflexivity | ].
    split; [ | split; assumption ].
    apply (Permutation_in row (Permutation_sym Hp)).
    apply in_or_app. right. left. reflexivity.
Qed.

Lemma send_message_then_fetch_witness :
  let sent := OrderRoutes.send_message (JStr "8") (JStr "user") (JStr "third")
                (Backoffice.start []) in
  exists l,
    fst (OrderRoutes.fetch_messages (JStr "8") (snd sent))
    = Reply (mkAnswer 200 (PMessages (Some l))) /\
    map m_message l = [JStr "first"; JStr "second"; JStr "third"].
Proof.
  intros sent.
  destruct (send_message_then_fetch (JStr "8") (JStr "user") (JStr "third")
              (Backoffice.start []) eq_refl eq_refl eq_refl eq_refl eq_refl)
    as (_ & _ & H).
  destruct (H eq_refl) as (l & Hr & _).
  exists l. split; [ exact Hr | ].
  assert (E : fst (OrderRoutes.fetch_messages (JStr "8") (snd sent))
              = Reply (mkAnswer 200 (PMessages (Some
                  [ mkMessage (JNum 2) (JNum 8) (JStr "admin") (JStr "first") 10;
                    mkMessage (JNum 1) (JNum 8) (JStr "user") (JStr "second") 20;
                    mkMessage (JNum 3) (JStr "8") (JStr "user") (JStr "third") 30 ]))))
    by reflexivity.
  pose proof (eq_trans (eq_sym E) Hr) as Heq. injection Heq as <-. reflexivity.
Defined.

(** ** The size router *)

(** The permission check as the size routes run it: for a user id that
    can be sent, one logged read of [superusers], [true] only without fault
    and for a superuser; for any other user id, [false] without a store
    call. *)
Lemma from_M_isSuperUser user_id x :
  from_M (Size.isSuperUser user_id) x
  = match sent_text user_id with
    | Normal _ =>
        (Yield (match hd NoFault (faults (base x)) with
                | NoFault => is_superuser (db (base x)) user_id
                | _ => false
                end),
         mkX (mkWorld (db (base x)) (tl (faults (base x)))
                      (trace (base x) ++ [(TSuperusers, OpSelect)]))
             (aux x) (calls x ++ [(XBase TSuperusers, XSelect)]))
    | Abrupt => (Yield false, x)
    end.
Proof.
  unfold from_M, Size.isSuperUser, try_catch, superusers_single, bind, lift, store_call, ret,
    throw, is_superuser.
  destruct (sent_text user_id) as [ text | ] eqn:Tu; simpl.
  - rewrite (filter_ext (fun s => same_key (db (base x)) (s_id s) user_id)
               (fun s => eq_text (db (base x)) (s_id s) text))
      by (intros s; apply same_key_sent; exact Tu).
    destruct (hd NoFault (faults (base x))); simpl.
    1: destruct (filter (fun s => eq_text (db (base x)) (s_id s) text)
                   (superusers (db (base x))))
         as [ | a [ | b l ] ]; simpl.
    all: rewrite (calls_between_app (base x) _ [(TSuperusers, OpSelect)]) by reflexivity.
    all: reflexivity.
  - rewrite (calls_between_app (base x) (base x) []) by (rewrite app_nil_r; reflexivity).
    simpl. rewrite app_nil_r. destruct x; reflexivity.
Qed.

Lemma is_superuser_sent d user_id :
  is_superuser d user_id = true -> exists text, sent_text user_id = Normal text.
Proof.
  unfold is_superuser, same_key.
  destruct (sent_text user_id) as [ text | ]; [ intros _; exists text; reflexivity | ].
  rewrite filter_none by reflexivity. discriminate.
Qed.

Ltac unfold_size_add :=
  unfold SizeRoutes.add, attempt, and_then, guard; simpl.

(** X19: [POST /api/sizes/add] stores a size exactly when it answers
    201, and then the caller is a superuser (the store selects exactly one
    row of [superusers] for the user id), the name was
    a string whose trimmed form is not empty, and the new row carries the
    trimmed name.  With any other answer, also when the permission lookup
    fails, the further tables are as before. *)
Theorem size_add_only_for_superusers
    (trim : string -> string) (size_name user_id : jsval) (x : xworld) :
  let out := SizeRoutes.add trim size_name user_id x in
  (exists s,
     size_name = JStr s /\ trim s <> EmptyString /\
     is_superuser (db (base x)) user_id = true /\
     fst out = Reply (mkAnswer 201
                 (PSize "Size added successfully!"
                    (Some (mkSize (JNum (next_size_id (aux x))) (JStr (trim s)))))) /\
     sizes (aux (snd out))
     = sizes (aux x) ++ [mkSize (JNum (next_size_id (aux x))) (JStr (trim s))])
  \/ (code_of (fst out) <> Some 201 /\ aux (snd out) = aux x).
Proof.
  unfold SizeRoutes.add, attempt, and_then, guard.
  destruct (truthy user_id); simpl;
    [ | right; split; [ discriminate | reflexivity ] ].
  rewrite from_M_isSuperUser.
  destruct (sent_text user_id) as [ text | ]; simpl;
    [ | right; split; [ discriminate | reflexivity ] ].
  destruct (hd NoFault (faults (base x))); simpl;
    try (right; split; [ discriminate | reflexivity ]).
  destruct (is_superuser (db (base x)) user_id); simpl;
    [ | right; split; [ discriminate | reflexivity ] ].
  destruct size_name as [ | | b | n | s | l | fs ]; simpl;
    try (right; split; [ discriminate | reflexivity ]).
  destruct (String.eqb_spec (trim s) EmptyString) as [ E | E ]; simpl;
    [ right; split; [ discriminate | reflexivity ] | ].
  unfold sizes_insert. unfold_routes.
  destruct (hd NoFault (tl (faults (base x)))); simpl;
    try (right; split; [ discriminate | reflexivity ]).
  left. exists s. repeat split. exact E.
Qed.

Lemma size_add_only_for_superusers_witness :
  let out := SizeRoutes.add Backoffice.trim (JStr "  XL ") (JArr [JStr "root"])
               (Backoffice.start []) in
  sizes (aux (snd out)) = sizes Backoffice.further ++ [mkSize (JNum 5) (JStr "XL")] /\
  aux (snd (SizeRoutes.add Backoffice.trim (JStr "XL") Scenario.u1 (Backoffice.start [])))
  = Backoffice.further.
Proof.
  intros out. split.
  - destruct (size_add_only_for_superusers Backoffice.trim (JStr "  XL ") (JArr [JStr "root"])
                (Backoffice.start [])) as [ (s & Hs & _ & _ & _ & H) | (Hcode & _) ].
    + injection Hs as <-. exact H.
    + exfalso. apply Hcode. reflexivity.
  - destruct (size_add_only_for_superusers Backoffice.trim (JStr "XL") Scenario.u1
                (Backoffice.start [])) as [ (s & _ & _ & Hsuper & _) | (_ & H) ].
    + discriminate Hsuper.
    + exact H.
Defined.

(** X20: for a superuser, a size name that is absent, [null] or blank
    after trimming is answered with 400 "Size name is required."; a name
    that is not a string (a number, a boolean, an array, an object) is
    answered with 500, because it has no [trim]; a string with a non-empty
    trimmed form is answered with 201 when the insert meets no fault. *)
Theorem size_add_name_edge_cases
    (trim : string -> string) (size_name user_id : jsval) (x : xworld) :
  let out := SizeRoutes.add trim size_name user_id x in
  truthy user_id = true ->
  nth_fault 0 (faults (base x)) = NoFault ->
  is_superuser (db (base x)) user_id = true ->
  ((size_name = JUndefined \/ size_name = JNull
    \/ (exists s, size_name = JStr s /\ trim s = EmptyString)) ->
   fst out = Reply (mkAnswer 400 (PError "Size name is required."))) /\
  ((forall s, size_name <> JStr s) -> size_name <> JUndefined -> size_name <> JNull ->
   fst out = Reply (mkAnswer 500 (PError "Internal server error."))) /\
  (forall s, size_name = JStr s -> trim s <> EmptyString ->
   nth_fault 1 (faults (base x)) = NoFault ->
   code_of (fst out) = Some 201).
Proof.
  intros out Hu F0 Hsuper. subst out. simpl in F0.
  destruct (is_superuser_sent _ _ Hsuper) as (text & Tu).
  unfold SizeRoutes.add, attempt, and_then, guard. rewrite Hu. simpl.
  rewrite from_M_isSuperUser, Tu, F0, Hsuper. simpl.
  split; [ | split ].
  - intros [ -> | [ -> | (s & -> & E) ] ]; simpl; try reflexivity.
    rewrite E. reflexivity.
  - intros Hs Hundef Hnull.
    destruct size_name as [ | | b | n | s | l | fs ]; simpl; try reflexivity;
      try congruence; exfalso; exact (Hs s eq_refl).
  - intros s -> E F1. simpl in F1 |- *.
    destruct (String.eqb_spec (trim s) EmptyString) as [ E' | _ ]; [ congruence | ].
    simpl. unfold sizes_insert. unfold_routes. rewrite F1. reflexivity.
Qed.

Lemma size_add_name_edge_cases_witness :
  fst (SizeRoutes.add Backoffice.trim (JStr "   ") (JStr "root") (Backoffice.start []))
  = Reply (mkAnswer 400 (PError "Size name is required.")) /\
  fst (SizeRoutes.add Backoffice.trim (JNum 42) (JStr "root") (Backoffice.start []))
  = Reply (mkAnswer 500 (PError "Internal server error.")).
Proof.
  split.
  - destruct (size_add_name_edge_cases Backoffice.trim (JStr "   ") (JStr "root")
                (Backoffice.start []) eq_refl eq_refl eq_refl) as (H & _).
    apply H. right; right. exists "   ". split; reflexivity.
  - destruct (size_add_name_edge_cases Backoffice.trim (JNum 42) (JStr "root")
                (Backoffice.start []) eq_refl eq_refl eq_refl) as (_ & H & _).
    apply H; discriminate.
Defined.

(** X21: [DELETE /api/sizes/delete] answers 200 only for a superuser and
    a size the store selects for the given id, and then exactly the rows
    the store selects for that id are gone and the message carries the id
    as text.  With any other answer the further tables are as before. *)
Theorem size_delete_only_for_superusers (id user_id : jsval) (x : xworld) :
  let out := SizeRoutes.delete id user_id x in
  (exists s text,
     is_superuser (db (base x)) user_id = true /\
     In s (sizes (aux x)) /\ same_key (db (base x)) (sz_id s) id = true /\
     sent_text id = Normal text /\
     fst out = Reply (mkAnswer 200 (PSizeDeleted text)) /\
     sizes (aux (snd out))
     = filter (fun s => negb (same_key (db (base x)) (sz_id s) id)) (sizes (aux x)))
  \/ (code_of (fst out) <> Some 200 /\ aux (snd out) = aux x).
Proof.
  unfold SizeRoutes.delete, attempt, and_then, guard.
  destruct (truthy user_id); simpl;
    [ | right; split; [ discriminate | reflexivity ] ].
  destruct (truthy id); simpl;
    [ | right; split; [ discriminate | reflexivity ] ].
  rewrite from_M_isSuperUser.
  destruct (sent_text user_id) as [ tu | ]; simpl;
    [ | right; split; [ discriminate | reflexivity ] ].
  destruct (hd NoFault (faults (base x))); simpl;
    try (right; split; [ discriminate | reflexivity ]).
  destruct (is_superuser (db (base x)) user_id); simpl;
    [ | right; split; [ discriminate | reflexivity ] ].
  unfold sizes_single, sizes_delete. unfold_routes.
  destruct (sent_text id) as [ text | ] eqn:Ti; simpl;
    [ | right; split; [ discriminate | reflexivity ] ].
  destruct (hd NoFault (tl (faults (base x)))); simpl;
    try (right; split; [ discriminate | reflexivity ]).
  rewrite single_error.
  destruct (data (single _)) as [ s | ] eqn:D; simpl;
    [ | right; split; [ discriminate | reflexivity ] ].
  destruct (hd NoFault (tl (tl (faults (base x))))); simpl;
    try (right; split; [ discriminate | reflexivity ]).
  left. exists s, text. apply single_some in D.
  assert (Hin : In s (sizes (aux x)) /\ eq_text (db (base x)) (sz_id s) text = true).
  { apply (filter_In (fun s => eq_text (db (base x)) (sz_id s) text)).
    rewrite D. left. reflexivity. }
  destruct Hin as (Hin & Hid).
  rewrite (same_key_sent _ _ _ _ Ti).
  repeat split; try assumption.
  apply filter_ext. intros r. rewrite (same_key_sent _ _ _ _ Ti). reflexivity.
Qed.

Lemma size_delete_only_for_superusers_witness :
  sizes (aux (snd (SizeRoutes.delete (JStr "3") (JStr "root") (Backoffice.start []))))
  = [mkSize (JNum 4) (JStr "L")] /\
  aux (snd (SizeRoutes.delete (JNum 3) Scenario.u1 (Backoffice.start [])))
  = Backoffice.further.
Proof.
  split.
  - destruct (size_delete_only_for_superusers (JStr "3") (JStr "root") (Backoffice.start []))
      as [ (s & text & _ & _ & _ & _ & _ & H) | (Hcode & _) ].
    + exact H.
    + exfalso. apply Hcode. reflexivity.
  - destruct (size_delete_only_for_superusers (JNum 3) Scenario.u1 (Backoffice.start []))
      as [ (s & text & Hsuper & _) | (_ & H) ].
    + discriminate Hsuper.
    + exact H.
Defined.

(** X22: a caller who is not a superuser (the store selects no single row
    of [superusers] for the user id), and any caller whose
    permission lookup fails, is answered with 403 by both size routes; the
    only store call is the lookup, which is not issued for a user id that
    cannot be sent, and no table has changed. *)
Theorem size_routes_answer_403_without_permission
    (trim : string -> string) (size_name id user_id : jsval) (x : xworld) :
  let after :=
    match sent_text user_id with
    | Normal _ =>
        mkX (mkWorld (db (base x)) (tl (faults (base x)))
                     (trace (base x) ++ [(TSuperusers, OpSelect)]))
            (aux x) (calls x ++ [(XBase TSuperusers, XSelect)])
    | Abrupt => x
    end in
  truthy user_id = true ->
  is_superuser (db (base x)) user_id = false \/ nth_fault 0 (faults (base x)) <> NoFault ->
  SizeRoutes.add trim size_name user_id x
  = (Reply (mkAnswer 403 (PError "Only superusers can add sizes.")), after) /\
  (truthy id = true ->
   SizeRoutes.delete id user_id x
   = (Reply (mkAnswer 403 (PError "Only superusers can delete sizes.")), after)).
Proof.
  intros after Hu Hno. subst after. simpl in Hno.
  assert (Hcheck : match hd NoFault (faults (base x)) with
                   | NoFault => is_superuser (db (base x)) user_id
                   | _ => false
                   end = false).
  { destruct (hd NoFault (faults (base x))); try reflexivity.
    destruct Hno as [ H | H ]; [ exact H | congruence ]. }
  split.
  - unfold SizeRoutes.add, attempt, and_then, guard. rewrite Hu. simpl.
    rewrite from_M_isSuperUser, Hcheck. destruct (sent_text user_id); reflexivity.
  - intros Hi. unfold SizeRoutes.delete, attempt, and_then, guard. rewrite Hu, Hi. simpl.
    rewrite from_M_isSuperUser, Hcheck. destruct (sent_text user_id); reflexivity.
Qed.

Lemma size_routes_answer_403_without_permission_witness :
  code_of (fst (SizeRoutes.add Backoffice.trim (JStr "XL") (JStr "root")
                  (Backoffice.start [ReturnsError]))) = Some 403 /\
  code_of (fst (SizeRoutes.delete (JNum 3) Scenario.u1 (Backoffice.start []))) = Some 403 /\
  SizeRoutes.delete (JNum 3) (JObj [("toString", JNum 0)]) (Backoffice.start [])
  = (Reply (mkAnswer 403 (PError "Only superusers can delete sizes.")), Backoffice.start []).
Proof.
  split; [ | split ].
  - destruct (size_routes_answer_403_without_permission Backoffice.trim (JStr "XL") (JNum 3)
                (JStr "root") (Backoffice.start [ReturnsError]) eq_refl) as (H & _).
    + right. simpl. discriminate.
    + rewrite H. reflexivity.
  - destruct (size_routes_answer_403_without_permission Backoffice.trim (JStr "XL") (JNum 3)
                Scenario.u1 (Backoffice.start []) eq_refl) as (_ & H).
    + left. reflexivity.
    + rewrite (H eq_refl). reflexivity.
  - destruct (size_routes_answer_403_without_permission Backoffice.trim (JStr "XL") (JNum 3)
                (JObj [("toString", JNum 0)]) (Backoffice.start []) eq_refl) as (_ & H).
    + left. reflexivity.
    + exact (H eq_refl).
Defined.
